(** * tg-message-watcher: the relay pipeline of [internal/app/app.go]

    A shallow embedding of the five functions that make up the relay
    ([getChannel], [handleEditChannelMessage], [handleNewChannelMessage],
    [fetchAndProcessMessages], [sendMessage]) together with the part of the
    [tg] data model they touch.  The repository holds a second text of the
    package, without the backfill; the development follows [app.go].

    The Go code talks to three outside parties: the Telegram API
    ([ChannelsGetChannels], [MessagesGetHistory]), the webhook ([http.Post])
    and the logger.  They are modelled by an abstract state [World] with one
    transition function per call; every call is recorded with its answer,
    and every log line, in an effect trace, so that "how many requests", "in
    which order" and "with which arguments" are statements about a list.  A
    Go panic is an outcome of its own and keeps the effects performed before
    it.  Identifiers are Go [int] and [int64] values; the code compares and
    prints them but never computes with them, so they are modelled in [Z]
    without wrap-around. *)

From Stdlib Require Import ZArith DecimalString DecimalZ.
From stdpp Require Import base tactics option list sorting strings.

Local Open Scope string_scope.
Local Open Scope list_scope.
Local Open Scope Z_scope.

(** ** The [tg] data model (only the fields the relay reads) *)

(** [tg.PeerClass]: the three concrete peers of the schema. *)
Inductive PeerClass : Type :=
| PeerUser (UserID : Z)
| PeerChat (ChatID : Z)
| PeerChannel (ChannelID : Z).

(** [tg.Message]: a plain message.  [ID] is a Go [int], [PeerID] the peer
    the message was sent to, [Message_text] the field [Message]. *)
Record Message : Type := mkMessage {
  Message_ID : Z;
  Message_PeerID : PeerClass;
  Message_text : string
}.

(** [tg.MessageClass]: empty, plain and service messages. *)
Inductive MessageClass : Type :=
| MessageEmptyC (ID : Z)
| MessageC (m : Message)
| MessageServiceC (ID : Z) (PeerID : PeerClass).

(** [tg.Channel] and the union [tg.ChatClass]. *)
Record Channel : Type := mkChannel {
  Channel_ID : Z;
  Channel_AccessHash : Z
}.

Inductive ChatClass : Type :=
| ChatEmptyC (ID : Z)
| ChatC (ID : Z)
| ChatForbiddenC (ID : Z)
| ChannelC (c : Channel)
| ChannelForbiddenC (ID : Z).

(** [tg.MessagesChatsClass]; [GetChats] reads the list in both variants. *)
Inductive MessagesChatsClass : Type :=
| MessagesChats (Chats : list ChatClass)
| MessagesChatsSlice (Count : Z) (Chats : list ChatClass).

Definition GetChats (c : MessagesChatsClass) : list ChatClass :=
  match c with
  | MessagesChats chats => chats
  | MessagesChatsSlice _ chats => chats
  end.

(** [tg.MessagesMessagesClass], the answer of [MessagesGetHistory]. *)
Inductive MessagesMessagesClass : Type :=
| MessagesMessages (Messages : list MessageClass)
| MessagesMessagesSlice (Count : Z) (Messages : list MessageClass)
| MessagesChannelMessages (Messages : list MessageClass)
| MessagesMessagesNotModified (Count : Z).

Record InputChannel : Type := mkInputChannel {
  InputChannel_ChannelID : Z;
  InputChannel_AccessHash : Z
}.

Record InputPeerChannel : Type := mkInputPeerChannel {
  InputPeerChannel_ChannelID : Z;
  InputPeerChannel_AccessHash : Z
}.

Record MessagesGetHistoryRequest : Type := mkHistoryRequest {
  Req_Peer : InputPeerChannel;
  Req_OffsetID : Z;
  Req_Limit : Z
}.

(** The two live updates the dispatcher is registered for. *)
Record UpdateNewChannelMessage : Type :=
  { UpdateNew_Message : MessageClass }.
Record UpdateEditChannelMessage : Type :=
  { UpdateEdit_Message : MessageClass }.

(** [config.TgAppConfig] and [config.Config]. *)
Record TgAppConfig : Type := mkTgAppConfig {
  AppId : Z;
  AppHash : string;
  ChatForWatch : Z;
  WebhookUrl : string
}.

Record Config : Type := mkConfig { TgApp : TgAppConfig }.

(** A Go [error] is identified with its message; a nil error is [None]. *)
Definition error : Type := string.

(** [*http.Response]: only the status code is read. *)
Record Response : Type := mkResponse { StatusCode : Z }.

(** The body handed to [http.Post]: the JSON object [json.Marshal] makes of
    a [map[string]string], as its members in the order the encoder emits
    them (sorted by key). *)
Definition json_object : Type := list (string * string).

(** ** Getters of the generated [tg] code

    The comma-ok assertion to a pointer to [tg.Message] yields a nil
    pointer when it fails; the generated getters accept a nil receiver and
    return the zero value. *)

Definition as_Message (m : MessageClass) : option Message :=
  match m with
  | MessageC msg => Some msg
  | _ => None
  end.

Definition GetPeerID (msg : option Message) : option PeerClass :=
  match msg with
  | Some m => Some (Message_PeerID m)
  | None => None
  end.

Definition GetMessage (msg : option Message) : string :=
  match msg with
  | Some m => Message_text m
  | None => ""
  end.

Definition GetID (msg : option Message) : Z :=
  match msg with
  | Some m => Message_ID m
  | None => 0
  end.

(** The names the runtime prints for the dynamic types. *)
Definition PeerClass_TypeName (p : PeerClass) : string :=
  match p with
  | PeerUser _ => "*tg.PeerUser"
  | PeerChat _ => "*tg.PeerChat"
  | PeerChannel _ => "*tg.PeerChannel"
  end.

Definition MessageClass_TypeName (m : MessageClass) : string :=
  match m with
  | MessageEmptyC _ => "*tg.MessageEmpty"
  | MessageC _ => "*tg.Message"
  | MessageServiceC _ _ => "*tg.MessageService"
  end.

(** [strconv.Itoa]: base ten, a leading minus sign for negatives. *)
Definition Itoa (n : Z) : string := NilEmpty.string_of_int (Z.to_int n).

(** The local [postBody] of [sendMessage]: the marshalled map with the keys
    [text], [type] and [external_id]. *)
Definition postBody (text messageType : string) (messageID : Z) : json_object :=
  [("external_id", Itoa messageID); ("text", text); ("type", messageType)].

(** ** Effects *)

(** The effect trace is a log of every exchange with the outside: each
    request is recorded with the answer it got. *)
Inductive Event : Type :=
| EvChannelsGetChannels (req : list InputChannel)
    (resp : error + MessagesChatsClass)
| EvMessagesGetHistory (req : MessagesGetHistoryRequest)
    (resp : error + MessagesMessagesClass)
| EvHttpPost (url contentType : string) (body : json_object)
    (resp : error + Response)
| EvLogError (msg : string) (err : error)
| EvLogInfo (msg : string) (text : string).

Inductive outcome (A : Type) : Type :=
| Returned (a : A)
| Panicked (reason : string)
| OutOfFuel.
Arguments Returned {A} a.
Arguments Panicked {A} reason.
Arguments OutOfFuel {A}.

(** The outside world: an abstract state and the three calls that leave the
    process.  Each call answers and moves the world on, so that answers may
    depend on everything that happened before. *)
Class Outside : Type := {
  World : Type;
  ChannelsGetChannels :
    World -> list InputChannel -> (error + MessagesChatsClass) * World;
  MessagesGetHistory :
    World -> MessagesGetHistoryRequest
    -> (error + MessagesMessagesClass) * World;
  http_Post :
    World -> string -> string -> json_object -> (error + Response) * World
}.

(** A computation maps a world to an outcome, the world it leaves behind
    and the effects it performed, oldest first. *)
Definition M `{Outside} (A : Type) : Type :=
  World -> outcome A * World * list Event.

Definition ret `{Outside} {A} (a : A) : M A := fun w => (Returned a, w, []).

Definition bind `{Outside} {A B} (m : M A) (k : A -> M B) : M B :=
  fun w =>
    match m w with
    | (Returned a, w1, t1) =>
        match k a w1 with
        | (o, w2, t2) => (o, w2, (t1 ++ t2)%list)
        end
    | (Panicked r, w1, t1) => (Panicked r, w1, t1)
    | (OutOfFuel, w1, t1) => (OutOfFuel, w1, t1)
    end.

Definition panic `{Outside} {A} (reason : string) : M A :=
  fun w => (Panicked reason, w, []).

Definition out_of_fuel `{Outside} {A} : M A := fun w => (OutOfFuel, w, []).

Definition emit `{Outside} (e : Event) : M unit :=
  fun w => (Returned tt, w, [e]).

Notation "x <- m ;; k" := (bind m (fun x => k))
  (at level 100, m at next level, right associativity).
Notation "m ;;; k" := (bind m (fun _ => k))
  (at level 100, right associativity).

Section Relay.
Context `{Outside}.

Definition call_ChannelsGetChannels (req : list InputChannel)
  : M (error + MessagesChatsClass) :=
  fun w => let '(r, w') := ChannelsGetChannels w req in
           (Returned r, w', [EvChannelsGetChannels req r]).

Definition call_MessagesGetHistory (req : MessagesGetHistoryRequest)
  : M (error + MessagesMessagesClass) :=
  fun w => let '(r, w') := MessagesGetHistory w req in
           (Returned r, w', [EvMessagesGetHistory req r]).

Definition call_http_Post (url contentType : string) (body : json_object)
  : M (error + Response) :=
  fun w => let '(r, w') := http_Post w url contentType body in
           (Returned r, w', [EvHttpPost url contentType body r]).

Definition log_Error (msg : string) (err : error) : M unit :=
  emit (EvLogError msg err).
Definition log_Info (msg : string) (text : string) : M unit :=
  emit (EvLogInfo msg text).

(** The single-value assertions to a [PeerChannel] and to a [Message]
    pointer panic when the dynamic type differs or the interface is nil,
    with the message of the runtime's [TypeAssertionError]. *)
Definition assert_PeerChannel (p : option PeerClass) : M Z :=
  match p with
  | Some (PeerChannel id) => ret id
  | Some other =>
      panic ("interface conversion: tg.PeerClass is "
             +:+ PeerClass_TypeName other +:+ ", not *tg.PeerChannel")
  | None => panic "interface conversion: tg.PeerClass is nil, not *tg.PeerChannel"
  end.

Definition assert_Message (m : option MessageClass) : M Message :=
  match m with
  | Some (MessageC msg) => ret msg
  | Some other =>
      panic ("interface conversion: tg.MessageClass is "
             +:+ MessageClass_TypeName other +:+ ", not *tg.Message")
  | None => panic "runtime error: index out of range [-1]"
  end.

(** ** The functions of [app.go] *)

(** [getChannel]: ask for the channel with a zero access hash, fail on an
    API error, on an empty list and on a first entry that is no channel. *)
Definition getChannel (channelID : Z) : M (error + Channel) :=
  let inputChannel := mkInputChannel channelID 0 in
  r <- call_ChannelsGetChannels [inputChannel] ;;
  match r with
  | inl err => ret (inl ("failed to fetch channel: " +:+ err))
  | inr channels =>
      if decide (length (GetChats channels) = 0%nat)
      then ret (inl "no channels found")
      else
        match GetChats channels with
        | ChannelC channel :: _ => ret (inr channel)
        | _ => ret (inl "unexpected chat type")
        end
  end.

Definition http_StatusOK : Z := 200.

(** [sendMessage]: marshal the three fields, post once, report a transport
    error or a status other than 200. *)
Definition sendMessage (text webHookUrl messageType : string) (messageID : Z)
  : M (option error) :=
  r <- call_http_Post webHookUrl "application/json"
         (postBody text messageType messageID) ;;
  match r with
  | inl err => ret (Some err)
  | inr resp =>
      if decide (StatusCode resp ≠ http_StatusOK)
      then ret (Some ("unexpected status code: " +:+ Itoa (StatusCode resp)))
      else ret None
  end.

(** [handleEditChannelMessage]: the payload is asserted to be a plain
    message with the comma-ok form and the result used unchecked; the peer
    is asserted to be a channel; the channel is looked up; the message is
    sent on when the channel is the watched one. *)
Definition handleEditChannelMessage (cfg : Config)
    (update : UpdateEditChannelMessage) : M (option error) :=
  let msg := as_Message (UpdateEdit_Message update) in
  channelID <- assert_PeerChannel (GetPeerID msg) ;;
  r <- getChannel channelID ;;
  match r with
  | inl err =>
      log_Error "get channel" err ;;;
      ret (Some err)
  | inr channel =>
      (if decide (Channel_ID channel = ChatForWatch (TgApp cfg))
       then
         let text := GetMessage msg in
         err <- sendMessage text (WebhookUrl (TgApp cfg)) "editMessage"
                  (GetID msg) ;;
         match err with
         | Some e => log_Error "Error sending message" e
         | None => ret tt
         end ;;;
         log_Info "Message" text
       else ret tt) ;;;
      ret None
  end.

(** [handleNewChannelMessage]: the same with the literal ["newMessage"]. *)
Definition handleNewChannelMessage (cfg : Config)
    (update : UpdateNewChannelMessage) : M (option error) :=
  let msg := as_Message (UpdateNew_Message update) in
  channelID <- assert_PeerChannel (GetPeerID msg) ;;
  r <- getChannel channelID ;;
  match r with
  | inl err =>
      log_Error "get channel" err ;;;
      ret (Some err)
  | inr channel =>
      (if decide (Channel_ID channel = ChatForWatch (TgApp cfg))
       then
         let text := GetMessage msg in
         err <- sendMessage text (WebhookUrl (TgApp cfg)) "newMessage"
                  (GetID msg) ;;
         match err with
         | Some e => log_Error "Error sending message" e
         | None => ret tt
         end ;;;
         log_Info "Message" text
       else ret tt) ;;;
      ret None
  end.

(** The [range] loop over one history page: entries that are no plain
    message are skipped, every other one is sent as ["oldMessage"]. *)
Fixpoint process_page (cfg : Config) (messages : list MessageClass) : M unit :=
  match messages with
  | [] => ret tt
  | message :: rest =>
      match message with
      | MessageC msg =>
          let text := Message_text msg in
          err <- sendMessage text (WebhookUrl (TgApp cfg)) "oldMessage"
                   (Message_ID msg) ;;
          match err with
          | Some e => log_Error "Error sending message" e
          | None => ret tt
          end ;;;
          log_Info "Message" text
      | _ => ret tt
      end ;;;
      process_page cfg rest
  end.

(** The [for] loop of [fetchAndProcessMessages]; [fuel] bounds the number
    of iterations, which the Go code leaves to the API's answers. *)
Fixpoint history_loop (fuel : nat) (cfg : Config) (peer : InputPeerChannel)
    (offsetID : Z) : M (option error) :=
  match fuel with
  | O => out_of_fuel
  | S fuel' =>
      r <- call_MessagesGetHistory (mkHistoryRequest peer offsetID 100) ;;
      match r with
      | inl err => ret (Some err)
      | inr (MessagesChannelMessages history) =>
          process_page cfg history ;;;
          if decide (length history < 100)%nat
          then ret None
          else
            last_msg <- assert_Message (last history) ;;
            history_loop fuel' cfg peer (Message_ID last_msg)
      | inr _ => ret (Some "unexpected messages type")
      end
  end.

Definition fetchAndProcessMessages (fuel : nat) (cfg : Config)
  : M (option error) :=
  r <- getChannel (ChatForWatch (TgApp cfg)) ;;
  match r with
  | inl err => ret (Some err)
  | inr channel =>
      let peer := mkInputPeerChannel (Channel_ID channel)
                    (Channel_AccessHash channel) in
      history_loop fuel cfg peer 0
  end.

End Relay.

(** ** Reading a trace *)

(** The webhook requests of a trace: URL, content type and body. *)
Definition posts (t : list Event) : list (string * string * json_object) :=
  omap (fun e => match e with
                 | EvHttpPost u c b _ => Some (u, c, b)
                 | _ => None
                 end) t.

(** The history requests of a trace, each with its answer. *)
Definition history_exchanges (t : list Event)
  : list (MessagesGetHistoryRequest * (error + MessagesMessagesClass)) :=
  omap (fun e => match e with
                 | EvMessagesGetHistory req resp => Some (req, resp)
                 | _ => None
                 end) t.

(** The channel look-ups of a trace. *)
Definition resolutions (t : list Event) : list (list InputChannel) :=
  omap (fun e => match e with
                 | EvChannelsGetChannels req _ => Some req
                 | _ => None
                 end) t.

(** The offsets the history requests of a trace were made at. *)
Definition cursors (t : list Event) : list Z :=
  (fun x => Req_OffsetID x.1) <$> history_exchanges t.

(** The entries an answer of [MessagesGetHistory] carries for the relay:
    only a [MessagesChannelMessages] is read. *)
Definition page_of (resp : error + MessagesMessagesClass) : list MessageClass :=
  match resp with
  | inr (MessagesChannelMessages page) => page
  | _ => []
  end.

(** The sizes of the pages a trace fetched. *)
Definition page_sizes (t : list Event) : list nat :=
  (fun x => length (page_of x.2)) <$> history_exchanges t.

(** A member of a JSON object. *)
Definition field (k : string) (o : json_object) : option string :=
  snd <$> List.find (fun kv => bool_decide (kv.1 = k)) o.

(** Reading a decimal numeral back, the inverse of [Itoa]. *)
Definition Atoi (s : string) : option Z :=
  Z.of_int <$> NilEmpty.int_of_string s.

(** ** What the code makes of an answer *)

(** The error [sendMessage] returns for an answer of the webhook. *)
Definition delivery_error (r : error + Response) : option error :=
  match r with
  | inl err => Some err
  | inr resp =>
      if decide (StatusCode resp ≠ http_StatusOK)
      then Some ("unexpected status code: " +:+ Itoa (StatusCode resp))
      else None
  end.

(** The result [getChannel] returns for an answer of the API. *)
Definition resolved (r : error + MessagesChatsClass) : error + Channel :=
  match r with
  | inl err => inl ("failed to fetch channel: " +:+ err)
  | inr channels =>
      match GetChats channels with
      | [] => inl "no channels found"
      | ChannelC channel :: _ => inr channel
      | _ :: _ => inl "unexpected chat type"
      end
  end.

(** The identifier every message variant carries. *)
Definition entry_ID (m : MessageClass) : Z :=
  match m with
  | MessageEmptyC id => id
  | MessageC msg => Message_ID msg
  | MessageServiceC id _ => id
  end.


(** Modelled from the spec: the contract of the external history call
    [fetchHistoryPage(chat, offsetID, limit)], which is not code of this
    repository.  Over a history listed newest first it returns up to
    [limit] entries older than the cursor, where the cursor [0] means
    "most recent". *)
Definition history_page (hist : list MessageClass) (offsetID : Z)
    (limit : nat) : list MessageClass :=
  take limit
    (filter (fun m => offsetID = 0 \/ entry_ID m < offsetID) hist).

(** A history is listed newest first, with identifiers that are positive
    and strictly decreasing down the list. *)
Definition newest_first (hist : list MessageClass) : Prop :=
  StronglySorted (fun a b => entry_ID b < entry_ID a) hist /\
  Forall (fun m => 0 < entry_ID m) hist.

(** The number of pages of size [p] that hold [n] entries, rounded up. *)
Definition ceil_div (n p : nat) : nat := ((n + p - 1) / p)%nat.

(** The text both live handlers share, with the literal they pass to
    [sendMessage] as a parameter; [handleEdit_generic] and
    [handleNew_generic] below show that it is what they are. *)
Definition handleChannelMessage `{Outside} (cfg : Config)
    (messageType : string) (payload : MessageClass) : M (option error) :=
  let msg := as_Message payload in
  channelID <- assert_PeerChannel (GetPeerID msg) ;;
  r <- getChannel channelID ;;
  match r with
  | inl err =>
      log_Error "get channel" err ;;;
      ret (Some err)
  | inr channel =>
      (if decide (Channel_ID channel = ChatForWatch (TgApp cfg))
       then
         let text := GetMessage msg in
         err <- sendMessage text (WebhookUrl (TgApp cfg)) messageType
                  (GetID msg) ;;
         match err with
         | Some e => log_Error "Error sending message" e
         | None => ret tt
         end ;;;
         log_Info "Message" text
       else ret tt) ;;;
      ret None
  end.

(** The trace of a live handler that reached the webhook: the look-up, the
    request, the error line when the delivery failed, the info line. *)
Definition relayed_trace (c : Z) (resolution : error + MessagesChatsClass)
    (url text messageType : string) (messageID : Z)
    (answer : error + Response) : list Event :=
  [EvChannelsGetChannels [mkInputChannel c 0] resolution;
   EvHttpPost url "application/json" (postBody text messageType messageID)
     answer]
  ++ match delivery_error answer with
     | Some e => [EvLogError "Error sending message" e]
     | None => []
     end
  ++ [EvLogInfo "Message" text].

(** The events one plain message of a history page gives rise to. *)
Definition replayed_trace (url : string) (msg : Message)
    (answer : error + Response) : list Event :=
  [EvHttpPost url "application/json"
     (postBody (Message_text msg) "oldMessage" (Message_ID msg)) answer]
  ++ match delivery_error answer with
     | Some e => [EvLogError "Error sending message" e]
     | None => []
     end
  ++ [EvLogInfo "Message" (Message_text msg)].

(** The history call answers from the fixed history [hist], whatever the
    state of the world. *)
Definition serves `{Outside} (hist : list MessageClass) : Prop :=
  forall (w : World) req,
    (MessagesGetHistory w req).1
    = inr (MessagesChannelMessages
             (history_page hist (Req_OffsetID req) (Z.to_nat (Req_Limit req)))).


(** Every entry that ends a page of a hundred is a plain message. *)
Definition plain_at_boundaries (hist : list MessageClass) : Prop :=
  forall (k : nat) m,
    hist !! (100 * k + 99)%nat = Some m -> is_Some (as_Message m).

(** ** Concrete worlds *)

(** A history of [n] plain messages of channel 42 with the identifiers
    [n], ..., [1], newest first. *)
Definition plain_history (n : nat) : list MessageClass :=
  (fun i => MessageC (mkMessage (Z.of_nat i) (PeerChannel 42) "hi"))
    <$> reverse (seq 1 n).

(** A world that serves the history [hist], resolves every channel asked
    for to a channel of that identifier, and whose webhook answers 500 to
    the first request and 200 afterwards.  Its state counts the webhook
    requests made so far. *)
Definition serving (hist : list MessageClass) : Outside := {|
  World := nat;
  ChannelsGetChannels w req :=
    (match req with
     | ic :: _ =>
         inr (MessagesChats [ChannelC (mkChannel (InputChannel_ChannelID ic) 77)])
     | [] => inl "CHANNEL_INVALID"
     end, w);
  MessagesGetHistory w req :=
    (inr (MessagesChannelMessages
            (history_page hist (Req_OffsetID req) (Z.to_nat (Req_Limit req)))),
     w);
  http_Post w _ _ _ :=
    (match w with
     | O => inr (mkResponse 500)
     | S _ => inr (mkResponse 200)
     end, S w)
|}.

(** A channel as it starts out: its first entry, with the identifier 1, is
    the service message of its creation; 99 plain messages follow. *)
Definition young_channel : list MessageClass :=
  ((fun i => MessageC (mkMessage (Z.of_nat i) (PeerChannel 42) "hi"))
     <$> reverse (seq 2 99))
  ++ [MessageServiceC 1 (PeerChannel 42)].

Definition watch42 : Config :=
  mkConfig (mkTgAppConfig 1 "hash" 42 "http://hook.example/in").

Definition hello7 : Message := mkMessage 7 (PeerChannel 42) "Hello".
Definition other8 : Message := mkMessage 8 (PeerChannel 5) "elsewhere".

(** ** The backfill task of [Run] *)

(** The body of the goroutine [Run] starts when [-all-messages] is set: the
    backfill, whose error is logged and goes no further. *)
Definition backfill_task `{Outside} (fuel : nat) (cfg : Config) : M unit :=
  err <- fetchAndProcessMessages fuel cfg ;;
  match err with
  | Some e => log_Error "fetch and process messages" e
  | None => ret tt
  end.

(** The errors of the webhook requests of a trace, by [delivery_error]. *)
Definition delivery_failures (t : list Event) : list error :=
  omap (fun e => match e with
                 | EvHttpPost _ _ _ answer => delivery_error answer
                 | _ => None
                 end) t.

(** The error lines of a trace: message and error. *)
Definition error_lines (t : list Event) : list (string * error) :=
  omap (fun e => match e with
                 | EvLogError msg err => Some (msg, err)
                 | _ => None
                 end) t.

(** The body the backfill posts for a plain message. *)
Definition replayed_post (cfg : Config) (msg : Message)
  : string * string * json_object :=
  (WebhookUrl (TgApp cfg), "application/json",
   postBody (Message_text msg) "oldMessage" (Message_ID msg)).

(** A world in which nothing can be reached. *)
Definition offline : Outside := {|
  World := unit;
  ChannelsGetChannels w _ := (inl "connection refused", w);
  MessagesGetHistory w _ := (inl "connection refused", w);
  http_Post w _ _ _ := (inl "connection refused", w)
|}.

(** A world whose history call answers every request with the same page,
    whatever the cursor. *)
Definition repeating (page : list MessageClass) : Outside := {|
  World := unit;
  ChannelsGetChannels w req :=
    (match req with
     | ic :: _ =>
         inr (MessagesChats [ChannelC (mkChannel (InputChannel_ChannelID ic) 77)])
     | [] => inl "CHANNEL_INVALID"
     end, w);
  MessagesGetHistory w _ := (inr (MessagesChannelMessages page), w);
  http_Post w _ _ _ := (inr (mkResponse 200), w)
|}.

(** ** The second text of the package

    It differs from [app.go] in four places: [getChannel] takes the message
    and checks its peer itself, but asserts the first chat to be a channel
    without a check; the handlers lower-case the text and print a failed
    delivery to the standard output; [sendMessage] names the identifier
    [message_id].  There is no backfill. *)

Module Legacy.

(** What the second text does to the outside: the effects of the relay and
    lines on the standard output (without their newline). *)
Inductive Out : Type :=
| Eff (e : Event)
| Stdout (line : string).

Definition ChatClass_TypeName (c : ChatClass) : string :=
  match c with
  | ChatEmptyC _ => "*tg.ChatEmpty"
  | ChatC _ => "*tg.Chat"
  | ChatForbiddenC _ => "*tg.ChatForbidden"
  | ChannelC _ => "*tg.Channel"
  | ChannelForbiddenC _ => "*tg.ChannelForbidden"
  end.

(** The local [postBody] of [sendMessage], members in key order. *)
Definition postBody (text messageType : string) (messageID : Z) : json_object :=
  [("message_id", Itoa messageID); ("text", text); ("type", messageType)].

Section Functions.
Context `{Outside}.

(** [strings.ToLower], of the Go library. *)
Variable ToLower : string -> string.

Definition ML (A : Type) : Type := World -> outcome A * World * list Out.

Definition ret {A} (a : A) : ML A := fun w => (Returned a, w, []).

Definition bind {A B} (m : ML A) (k : A -> ML B) : ML B :=
  fun w =>
    match m w with
    | (Returned a, w1, t1) =>
        match k a w1 with
        | (o, w2, t2) => (o, w2, t1 ++ t2)
        end
    | (Panicked r, w1, t1) => (Panicked r, w1, t1)
    | (OutOfFuel, w1, t1) => (OutOfFuel, w1, t1)
    end.

Definition panic {A} (reason : string) : ML A :=
  fun w => (Panicked reason, w, []).

(** A computation of the relay, run here. *)
Definition lift {A} (m : M A) : ML A :=
  fun w => match m w with (o, w1, t) => (o, w1, Eff <$> t) end.

(** [fmt.Println] of a label and an error. *)
Definition Println (label : string) (err : error) : ML unit :=
  fun w => (Returned tt, w, [Stdout (label +:+ " " +:+ err)]).

(** The unchecked assertion of the first chat to a channel. *)
Definition assert_Channel (c : option ChatClass) : ML Channel :=
  match c with
  | Some (ChannelC channel) => ret channel
  | Some other =>
      panic ("interface conversion: tg.ChatClass is "
             +:+ ChatClass_TypeName other +:+ ", not *tg.Channel")
  | None => panic "runtime error: index out of range [0] with length 0"
  end.

(** [getChannel]: the peer of the message must be a channel, else the error
    "bad peerID"; then as in [app.go], but for the last step. *)
Definition getChannel (msg : option Message) : ML (error + Channel) :=
  match GetPeerID msg with
  | Some (PeerChannel channelID) =>
      bind (lift (call_ChannelsGetChannels [mkInputChannel channelID 0]))
        (fun r =>
           match r with
           | inl err => ret (inl ("failed to fetch channel: " +:+ err))
           | inr channels =>
               if decide (length (GetChats channels) = 0%nat)
               then ret (inl "no channels found")
               else bind (assert_Channel (head (GetChats channels)))
                      (fun channel => ret (inr channel))
           end)
  | _ => ret (inl "bad peerID")
  end.

(** [sendMessage]: as in [app.go] with the other body. *)
Definition sendMessage (text webHookUrl messageType : string) (messageID : Z)
  : ML (option error) :=
  bind (lift (call_http_Post webHookUrl "application/json"
                (postBody text messageType messageID)))
    (fun r =>
       match r with
       | inl err => ret (Some err)
       | inr resp =>
           if decide (StatusCode resp ≠ http_StatusOK)
           then ret (Some ("unexpected status code: "
                           +:+ Itoa (StatusCode resp)))
           else ret None
       end).

Definition handleEditChannelMessage (cfg : Config)
    (update : UpdateEditChannelMessage) : ML (option error) :=
  let msg := as_Message (UpdateEdit_Message update) in
  bind (getChannel msg)
    (fun r =>
       match r with
       | inl err =>
           bind (lift (log_Error "get channel" err))
             (fun _ => ret (Some err))
       | inr channel =>
           bind
             (if decide (Channel_ID channel = ChatForWatch (TgApp cfg))
              then
                let text := ToLower (GetMessage msg) in
                bind (sendMessage text (WebhookUrl (TgApp cfg)) "editMessage"
                        (GetID msg))
                  (fun err =>
                     bind (match err with
                           | Some e => Println "Error sending message:" e
                           | None => ret tt
                           end)
                       (fun _ => lift (log_Info "Message" text)))
              else ret tt)
             (fun _ => ret None)
       end).

Definition handleNewChannelMessage (cfg : Config)
    (update : UpdateNewChannelMessage) : ML (option error) :=
  let msg := as_Message (UpdateNew_Message update) in
  bind (getChannel msg)
    (fun r =>
       match r with
       | inl err =>
           bind (lift (log_Error "get channel" err))
             (fun _ => ret (Some err))
       | inr channel =>
           bind
             (if decide (Channel_ID channel = ChatForWatch (TgApp cfg))
              then
                let text := ToLower (GetMessage msg) in
                bind (sendMessage text (WebhookUrl (TgApp cfg)) "newMessage"
                        (GetID msg))
                  (fun err =>
                     bind (match err with
                           | Some e => Println "Error sending message:" e
                           | None => ret tt
                           end)
                       (fun _ => lift (log_Info "Message" text)))
              else ret tt)
             (fun _ => ret None)
       end).

End Functions.

(** The relay effects of a trace of the second text. *)
Definition effects (t : list Out) : list Event :=
  omap (fun o => match o with Eff e => Some e | Stdout _ => None end) t.


End Legacy.

(** Lower-casing of the letters A to Z, which is what [strings.ToLower]
    does to text of the ASCII range. *)
Fixpoint ascii_lower (s : string) : string :=
  match s with
  | EmptyString => EmptyString
  | String c rest =>
      let n := Ascii.nat_of_ascii c in
      String (if andb (Nat.leb 65 n) (Nat.leb n 90)
              then Ascii.ascii_of_nat (n + 32)
              else c)
        (ascii_lower rest)
  end.

(** A world whose look-up answers with a basic group instead of a channel;
    its webhook is up. *)
Definition answering_with_group : Outside := {|
  World := unit;
  ChannelsGetChannels w req :=
    (match req with
     | ic :: _ => inr (MessagesChats [ChatC (InputChannel_ChannelID ic)])
     | [] => inl "CHANNEL_INVALID"
     end, w);
  MessagesGetHistory w _ := (inr (MessagesChannelMessages []), w);
  http_Post w _ _ _ := (inr (mkResponse 200), w)
|}.

(** ** Properties *)

Section Properties.
Context `{Outside}.

Lemma sendMessage_run text url ty id (w : World) :
  sendMessage text url ty id w =
  (Returned (delivery_error (http_Post w url "application/json"
                               (postBody text ty id)).1),
   (http_Post w url "application/json" (postBody text ty id)).2,
   [EvHttpPost url "application/json" (postBody text ty id)
      (http_Post w url "application/json" (postBody text ty id)).1]).
Proof.
  unfold sendMessage, bind, call_http_Post.
  destruct (http_Post w url "application/json" (postBody text ty id))
    as [[err|resp] w'] eqn:E; simpl.
  - reflexivity.
  - unfold ret. destruct (decide (StatusCode resp ≠ http_StatusOK)); reflexivity.
Qed.

Lemma getChannel_run channelID (w : World) :
  getChannel channelID w =
  (Returned (resolved (ChannelsGetChannels w [mkInputChannel channelID 0]).1),
   (ChannelsGetChannels w [mkInputChannel channelID 0]).2,
   [EvChannelsGetChannels [mkInputChannel channelID 0]
      (ChannelsGetChannels w [mkInputChannel channelID 0]).1]).
Proof.
  unfold getChannel, bind, call_ChannelsGetChannels.
  destruct (ChannelsGetChannels w [mkInputChannel channelID 0])
    as [[err|channels] w'] eqn:E; simpl.
  - reflexivity.
  - unfold ret. destruct (GetChats channels) as [|[] ?]; reflexivity.
Qed.

Lemma handleEdit_generic cfg update :
  handleEditChannelMessage cfg update
  = handleChannelMessage cfg "editMessage" (UpdateEdit_Message update).
Proof. reflexivity. Qed.

Lemma handleNew_generic cfg update :
  handleNewChannelMessage cfg update
  = handleChannelMessage cfg "newMessage" (UpdateNew_Message update).
Proof. reflexivity. Qed.

(** A payload that is no plain message makes the handler panic at the peer
    assertion, before anything else happens. *)
Lemma handleChannelMessage_not_plain cfg ty payload (w : World) :
  as_Message payload = None ->
  handleChannelMessage cfg ty payload w
  = (Panicked "interface conversion: tg.PeerClass is nil, not *tg.PeerChannel",
     w, []).
Proof.
  intros E. unfold handleChannelMessage. rewrite E. reflexivity.
Qed.

(** So does a plain message whose peer is no channel. *)
Lemma handleChannelMessage_not_channel cfg ty msg (w : World) :
  (forall c, Message_PeerID msg <> PeerChannel c) ->
  handleChannelMessage cfg ty (MessageC msg) w
  = (Panicked ("interface conversion: tg.PeerClass is "
               +:+ PeerClass_TypeName (Message_PeerID msg)
               +:+ ", not *tg.PeerChannel"),
     w, []).
Proof.
  intros E. unfold handleChannelMessage. simpl.
  destruct (Message_PeerID msg) as [u|g|c]; try reflexivity.
  destruct (E c); reflexivity.
Qed.

(** A plain message of a channel: the three ways the handler ends. *)
Lemma handleChannelMessage_run cfg ty msg c (w : World) :
  Message_PeerID msg = PeerChannel c ->
  handleChannelMessage cfg ty (MessageC msg) w =
  match resolved (ChannelsGetChannels w [mkInputChannel c 0]).1 with
  | inl err =>
      (Returned (Some err),
       (ChannelsGetChannels w [mkInputChannel c 0]).2,
       [EvChannelsGetChannels [mkInputChannel c 0]
          (ChannelsGetChannels w [mkInputChannel c 0]).1;
        EvLogError "get channel" err])
  | inr channel =>
      if decide (Channel_ID channel = ChatForWatch (TgApp cfg))
      then
        (Returned None,
         (http_Post (ChannelsGetChannels w [mkInputChannel c 0]).2
            (WebhookUrl (TgApp cfg)) "application/json"
            (postBody (Message_text msg) ty (Message_ID msg))).2,
         relayed_trace c (ChannelsGetChannels w [mkInputChannel c 0]).1
           (WebhookUrl (TgApp cfg)) (Message_text msg) ty (Message_ID msg)
           (http_Post (ChannelsGetChannels w [mkInputChannel c 0]).2
              (WebhookUrl (TgApp cfg)) "application/json"
              (postBody (Message_text msg) ty (Message_ID msg))).1)
      else
        (Returned None,
         (ChannelsGetChannels w [mkInputChannel c 0]).2,
         [EvChannelsGetChannels [mkInputChannel c 0]
            (ChannelsGetChannels w [mkInputChannel c 0]).1])
  end.
Proof.
  intros Hpeer. unfold handleChannelMessage. simpl. rewrite Hpeer. simpl.
  unfold bind at 1. unfold ret at 1. simpl.
  unfold bind at 1. rewrite getChannel_run.
  destruct (resolved _) as [err|channel]; simpl.
  - reflexivity.
  - destruct (decide (Channel_ID channel = ChatForWatch (TgApp cfg))).
    + unfold bind at 1. unfold bind at 1. unfold bind at 1.
      rewrite sendMessage_run. unfold relayed_trace.
      destruct (delivery_error _); reflexivity.
    + reflexivity.
Qed.

(** *** The page loop *)

Lemma process_page_plain cfg msg rest (w : World) :
  process_page cfg (MessageC msg :: rest) w =
  ((process_page cfg rest
      (http_Post w (WebhookUrl (TgApp cfg)) "application/json"
         (postBody (Message_text msg) "oldMessage" (Message_ID msg))).2).1,
   replayed_trace (WebhookUrl (TgApp cfg)) msg
     (http_Post w (WebhookUrl (TgApp cfg)) "application/json"
        (postBody (Message_text msg) "oldMessage" (Message_ID msg))).1
   ++ (process_page cfg rest
         (http_Post w (WebhookUrl (TgApp cfg)) "application/json"
            (postBody (Message_text msg) "oldMessage" (Message_ID msg))).2).2).
Proof.
  cbn [process_page]. unfold bind at 1. unfold bind at 1. unfold bind at 1.
  rewrite sendMessage_run. unfold replayed_trace.
  destruct (delivery_error _); simpl;
    destruct (process_page cfg rest _) as [[o w'] t]; reflexivity.
Qed.

Lemma process_page_skip cfg m rest (w : World) :
  as_Message m = None ->
  process_page cfg (m :: rest) w = process_page cfg rest w.
Proof.
  intros E. destruct m; try discriminate; cbn [process_page];
    unfold bind, ret; destruct (process_page cfg rest w) as [[o w'] t];
    reflexivity.
Qed.

(** The page loop runs to its end whatever the webhook answers. *)
Lemma process_page_returns cfg messages (w : World) :
  (process_page cfg messages w).1.1 = Returned tt.
Proof.
  revert w. induction messages as [|m rest IH]; intros w; [reflexivity|].
  destruct (as_Message m) as [msg|] eqn:E.
  - destruct m; try discriminate. injection E as ->.
    rewrite process_page_plain. apply IH.
  - rewrite process_page_skip by exact E. apply IH.
Qed.

Lemma posts_app t1 t2 : posts (t1 ++ t2) = posts t1 ++ posts t2.
Proof. apply omap_app. Qed.

Lemma history_exchanges_app t1 t2 :
  history_exchanges (t1 ++ t2) = history_exchanges t1 ++ history_exchanges t2.
Proof. apply omap_app. Qed.

Lemma resolutions_app t1 t2 :
  resolutions (t1 ++ t2) = resolutions t1 ++ resolutions t2.
Proof. apply omap_app. Qed.

Lemma replayed_trace_posts url msg answer :
  posts (replayed_trace url msg answer)
  = [(url, "application/json",
      postBody (Message_text msg) "oldMessage" (Message_ID msg))].
Proof. unfold replayed_trace. destruct (delivery_error answer); reflexivity. Qed.

Lemma replayed_trace_no_api url msg answer :
  history_exchanges (replayed_trace url msg answer) = [] /\
  resolutions (replayed_trace url msg answer) = [].
Proof.
  unfold replayed_trace. destruct (delivery_error answer); split; reflexivity.
Qed.

(** One request per plain message of the page, in the order of the page. *)
Lemma process_page_posts cfg messages (w : World) :
  posts (process_page cfg messages w).2
  = (fun msg => (WebhookUrl (TgApp cfg), "application/json",
                 postBody (Message_text msg) "oldMessage" (Message_ID msg)))
    <$> omap as_Message messages.
Proof.
  revert w. induction messages as [|m rest IH]; intros w; [reflexivity|].
  destruct (as_Message m) as [msg|] eqn:E.
  - destruct m; try discriminate. injection E as ->.
    rewrite process_page_plain. cbn [snd omap as_Message fmap list_fmap].
    rewrite posts_app, replayed_trace_posts, IH. reflexivity.
  - rewrite process_page_skip by exact E. simpl. rewrite E. apply IH.
Qed.

Lemma process_page_no_api cfg messages (w : World) :
  history_exchanges (process_page cfg messages w).2 = [] /\
  resolutions (process_page cfg messages w).2 = [].
Proof.
  revert w. induction messages as [|m rest IH]; intros w; [split; reflexivity|].
  destruct (as_Message m) as [msg|] eqn:E.
  - destruct m; try discriminate. injection E as ->.
    rewrite process_page_plain. cbn [snd].
    rewrite history_exchanges_app, resolutions_app.
    destruct (replayed_trace_no_api (WebhookUrl (TgApp cfg)) msg
      (http_Post w (WebhookUrl (TgApp cfg)) "application/json"
         (postBody (Message_text msg) "oldMessage" (Message_ID msg))).1)
      as [-> ->].
    apply IH.
  - rewrite process_page_skip by exact E. apply IH.
Qed.

(** *** The history loop *)

(** One turn of the loop, by the answer it gets. *)
Lemma history_loop_error fuel cfg peer o (w : World) err :
  (MessagesGetHistory w (mkHistoryRequest peer o 100)).1 = inl err ->
  history_loop (S fuel) cfg peer o w =
  (Returned (Some err),
   (MessagesGetHistory w (mkHistoryRequest peer o 100)).2,
   [EvMessagesGetHistory (mkHistoryRequest peer o 100) (inl err)]).
Proof.
  intros E. cbn [history_loop]. unfold bind, call_MessagesGetHistory.
  destruct (MessagesGetHistory w _) as [a w1]. simpl in E. subst a.
  reflexivity.
Qed.

Lemma history_loop_unexpected fuel cfg peer o (w : World) answer :
  (MessagesGetHistory w (mkHistoryRequest peer o 100)).1 = inr answer ->
  (forall page, answer <> MessagesChannelMessages page) ->
  history_loop (S fuel) cfg peer o w =
  (Returned (Some "unexpected messages type"),
   (MessagesGetHistory w (mkHistoryRequest peer o 100)).2,
   [EvMessagesGetHistory (mkHistoryRequest peer o 100) (inr answer)]).
Proof.
  intros E Hne. cbn [history_loop]. unfold bind, call_MessagesGetHistory.
  destruct (MessagesGetHistory w _) as [a w1]. simpl in E. subst a.
  destruct answer as [x|n x|page|n]; try reflexivity.
  destruct (Hne page); reflexivity.
Qed.

Lemma history_loop_short fuel cfg peer o (w : World) page :
  (MessagesGetHistory w (mkHistoryRequest peer o 100)).1
    = inr (MessagesChannelMessages page) ->
  (length page < 100)%nat ->
  history_loop (S fuel) cfg peer o w =
  (Returned None,
   (process_page cfg page
      (MessagesGetHistory w (mkHistoryRequest peer o 100)).2).1.2,
   EvMessagesGetHistory (mkHistoryRequest peer o 100)
     (inr (MessagesChannelMessages page))
   :: (process_page cfg page
         (MessagesGetHistory w (mkHistoryRequest peer o 100)).2).2).
Proof.
  intros E Hlen. cbn [history_loop]. unfold bind at 1.
  unfold call_MessagesGetHistory.
  destruct (MessagesGetHistory w _) as [a w1]. simpl in E. subst a.
  unfold bind at 1. cbn [fst snd].
  pose proof (process_page_returns cfg page w1) as Hret.
  destruct (process_page cfg page w1) as [[r w2] t]. simpl in Hret. subst r.
  destruct (decide (length page < 100)%nat); [|contradiction].
  unfold ret. simpl. rewrite app_nil_r. reflexivity.
Qed.

Lemma history_loop_full fuel cfg peer o (w : World) page msg :
  (MessagesGetHistory w (mkHistoryRequest peer o 100)).1
    = inr (MessagesChannelMessages page) ->
  (100 <= length page)%nat ->
  last page = Some (MessageC msg) ->
  history_loop (S fuel) cfg peer o w =
  ((history_loop fuel cfg peer (Message_ID msg)
      (process_page cfg page
         (MessagesGetHistory w (mkHistoryRequest peer o 100)).2).1.2).1,
   EvMessagesGetHistory (mkHistoryRequest peer o 100)
     (inr (MessagesChannelMessages page))
   :: (process_page cfg page
         (MessagesGetHistory w (mkHistoryRequest peer o 100)).2).2
   ++ (history_loop fuel cfg peer (Message_ID msg)
         (process_page cfg page
            (MessagesGetHistory w (mkHistoryRequest peer o 100)).2).1.2).2).
Proof.
  intros E Hlen Hlast. cbn [history_loop]. unfold bind at 1.
  unfold call_MessagesGetHistory.
  destruct (MessagesGetHistory w _) as [a w1]. simpl in E. subst a.
  unfold bind at 1. cbn [fst snd].
  pose proof (process_page_returns cfg page w1) as Hret.
  destruct (process_page cfg page w1) as [[r w2] t]. simpl in Hret. subst r.
  destruct (decide (length page < 100)%nat); [lia|].
  rewrite Hlast. unfold bind at 1. unfold assert_Message, ret. cbn [fst snd].
  destruct (history_loop fuel cfg peer (Message_ID msg) w2) as [[r w3] t3].
  reflexivity.
Qed.

(** A full page whose last entry is no plain message: the cursor cannot be
    advanced, the assertion on the last entry panics. *)
Lemma history_loop_boundary_panic fuel cfg peer o (w : World) page m :
  (MessagesGetHistory w (mkHistoryRequest peer o 100)).1
    = inr (MessagesChannelMessages page) ->
  (100 <= length page)%nat ->
  last page = Some m ->
  as_Message m = None ->
  history_loop (S fuel) cfg peer o w =
  (Panicked ("interface conversion: tg.MessageClass is "
             +:+ MessageClass_TypeName m +:+ ", not *tg.Message"),
   (process_page cfg page
      (MessagesGetHistory w (mkHistoryRequest peer o 100)).2).1.2,
   EvMessagesGetHistory (mkHistoryRequest peer o 100)
     (inr (MessagesChannelMessages page))
   :: (process_page cfg page
         (MessagesGetHistory w (mkHistoryRequest peer o 100)).2).2).
Proof.
  intros E Hlen Hlast Hm. cbn [history_loop]. unfold bind at 1.
  unfold call_MessagesGetHistory.
  destruct (MessagesGetHistory w _) as [a w1]. simpl in E. subst a.
  unfold bind at 1. cbn [fst snd].
  pose proof (process_page_returns cfg page w1) as Hret.
  destruct (process_page cfg page w1) as [[r w2] t]. simpl in Hret. subst r.
  destruct (decide (length page < 100)%nat); [lia|].
  rewrite Hlast. unfold bind at 1.
  destruct m; try discriminate; simpl; rewrite app_nil_r; reflexivity.
Qed.

(** The case analysis of one turn, for the inductions on the fuel. *)
Ltac loop_turn fuel cfg peer o w :=
  let a := fresh "a" in let E := fresh "E" in
  let page := fresh "page" in let m := fresh "m" in
  let Hlast := fresh "Hlast" in let Hm := fresh "Hm" in
  let msg := fresh "msg" in let Hlen := fresh "Hlen" in
  let unexpected :=
    (rewrite (history_loop_unexpected fuel cfg peer o w _ E
                ltac:(intros; discriminate))) in
  destruct ((MessagesGetHistory w (mkHistoryRequest peer o 100)).1)
    as [err|a] eqn:E;
  [ rewrite (history_loop_error fuel cfg peer o w err E)
  | destruct a as [?|? ?|page|?];
    [ unexpected
    | unexpected
    | destruct (decide (length page < 100)%nat) as [Hlen|Hlen];
      [ rewrite (history_loop_short fuel cfg peer o w page E Hlen)
      | destruct (last page) as [m|] eqn:Hlast;
        [ destruct (as_Message m) as [msg|] eqn:Hm;
          [ destruct m; try discriminate; injection Hm as ->;
            rewrite (history_loop_full fuel cfg peer o w page msg E
                       ltac:(lia) Hlast)
          | rewrite (history_loop_boundary_panic fuel cfg peer o w page m E
                       ltac:(lia) Hlast Hm) ]
        | apply last_None in Hlast; subst page; simpl in Hlen; lia ] ]
    | unexpected ] ].

Lemma resolutions_history_cons req resp t :
  resolutions (EvMessagesGetHistory req resp :: t) = resolutions t.
Proof. reflexivity. Qed.

Lemma posts_resolution_cons req resp t :
  posts (EvChannelsGetChannels req resp :: t) = posts t.
Proof. reflexivity. Qed.

Lemma history_exchanges_resolution_cons req resp t :
  history_exchanges (EvChannelsGetChannels req resp :: t)
  = history_exchanges t.
Proof. reflexivity. Qed.

Lemma posts_history_cons req resp t :
  posts (EvMessagesGetHistory req resp :: t) = posts t.
Proof. reflexivity. Qed.

Lemma history_exchanges_cons req resp t :
  history_exchanges (EvMessagesGetHistory req resp :: t)
  = (req, resp) :: history_exchanges t.
Proof. reflexivity. Qed.

Lemma process_page_resolutions cfg messages (w : World) :
  resolutions (process_page cfg messages w).2 = [].
Proof. apply process_page_no_api. Qed.

Lemma process_page_exchanges cfg messages (w : World) :
  history_exchanges (process_page cfg messages w).2 = [].
Proof. apply process_page_no_api. Qed.

(** The loop never looks a channel up. *)
Lemma history_loop_resolutions fuel cfg peer o (w : World) :
  resolutions (history_loop fuel cfg peer o w).2 = [].
Proof.
  revert o w. induction fuel as [|fuel IH]; intros o w; [reflexivity|].
  loop_turn fuel cfg peer o w; cbn [snd];
    rewrite ?resolutions_history_cons, ?resolutions_app, ?IH,
      ?process_page_resolutions; reflexivity.
Qed.

(** Every request the loop sends to the webhook is an ["oldMessage"]. *)
Lemma history_loop_posts fuel cfg peer o (w : World) :
  Forall (fun p => exists msg : Message,
            p = (WebhookUrl (TgApp cfg), "application/json",
                 postBody (Message_text msg) "oldMessage" (Message_ID msg)))
    (posts (history_loop fuel cfg peer o w).2).
Proof.
  revert o w. induction fuel as [|fuel IH]; intros o w; [constructor|].
  assert (Hpage : forall page (w1 : World),
    Forall (fun p => exists msg : Message,
              p = (WebhookUrl (TgApp cfg), "application/json",
                   postBody (Message_text msg) "oldMessage" (Message_ID msg)))
      (posts (process_page cfg page w1).2)).
  { intros page w1. rewrite process_page_posts. apply Forall_fmap.
    apply Forall_true. intros msg. simpl. eauto. }
  loop_turn fuel cfg peer o w; cbn [snd];
    rewrite ?posts_history_cons, ?posts_app; try apply Forall_app;
    auto using Forall_nil.
Qed.


(** The backfill: one look-up of the watched chat, then the loop. *)
Lemma fetchAndProcessMessages_run fuel cfg (w : World) :
  fetchAndProcessMessages fuel cfg w =
  match resolved (ChannelsGetChannels w
                    [mkInputChannel (ChatForWatch (TgApp cfg)) 0]).1 with
  | inl err =>
      (Returned (Some err),
       (ChannelsGetChannels w
          [mkInputChannel (ChatForWatch (TgApp cfg)) 0]).2,
       [EvChannelsGetChannels [mkInputChannel (ChatForWatch (TgApp cfg)) 0]
          (ChannelsGetChannels w
             [mkInputChannel (ChatForWatch (TgApp cfg)) 0]).1])
  | inr channel =>
      ((history_loop fuel cfg
          (mkInputPeerChannel (Channel_ID channel) (Channel_AccessHash channel))
          0
          (ChannelsGetChannels w
             [mkInputChannel (ChatForWatch (TgApp cfg)) 0]).2).1,
       EvChannelsGetChannels [mkInputChannel (ChatForWatch (TgApp cfg)) 0]
         (ChannelsGetChannels w
            [mkInputChannel (ChatForWatch (TgApp cfg)) 0]).1
       :: (history_loop fuel cfg
             (mkInputPeerChannel (Channel_ID channel)
                (Channel_AccessHash channel))
             0
             (ChannelsGetChannels w
                [mkInputChannel (ChatForWatch (TgApp cfg)) 0]).2).2)
  end.
Proof.
  unfold fetchAndProcessMessages, bind. rewrite getChannel_run.
  destruct (resolved _) as [err|channel]; [reflexivity|].
  destruct (history_loop _ _ _ _ _) as [[o w'] t]. reflexivity.
Qed.

Lemma bind_returned {A B} (m : M A) (k : A -> M B) (w w1 : World) a t :
  m w = (Returned a, w1, t) ->
  bind m k w = ((k a w1).1, t ++ (k a w1).2).
Proof.
  intros E. unfold bind. rewrite E. destruct (k a w1) as [[o w2] t2].
  reflexivity.
Qed.

Lemma Atoi_Itoa n : Atoi (Itoa n) = Some n.
Proof.
  unfold Atoi, Itoa. rewrite NilEmpty.isi. simpl. f_equal.
  apply DecimalZ.of_to.
Qed.

Lemma resolved_channel chats channel others :
  GetChats chats = ChannelC channel :: others ->
  resolved (inr chats) = inr channel.
Proof. intros E. unfold resolved. rewrite E. reflexivity. Qed.

(** Whatever the event and whatever the world, a live handler reaches the
    webhook only for a plain message whose channel the API resolves to the
    watched chat. *)
Lemma dispatch_only_for_watched_chat cfg ty payload (w : World) :
  posts (handleChannelMessage cfg ty payload w).2 <> [] ->
  exists msg c channel,
    payload = MessageC msg /\
    Message_PeerID msg = PeerChannel c /\
    resolved (ChannelsGetChannels w [mkInputChannel c 0]).1 = inr channel /\
    Channel_ID channel = ChatForWatch (TgApp cfg).
Proof.
  intros Hposts. destruct (as_Message payload) as [m|] eqn:E.
  - destruct payload; try discriminate. injection E as ->.
    destruct (Message_PeerID m) as [u|g|c] eqn:Hpeer.
    + rewrite handleChannelMessage_not_channel in Hposts by congruence.
      destruct Hposts. reflexivity.
    + rewrite handleChannelMessage_not_channel in Hposts by congruence.
      destruct Hposts. reflexivity.
    + rewrite (handleChannelMessage_run cfg ty m c w Hpeer) in Hposts.
      destruct (resolved _) as [err|ch] eqn:Hres;
        [destruct Hposts; reflexivity|].
      destruct (decide (Channel_ID ch = ChatForWatch (TgApp cfg)))
        as [Hid|Hid]; [|destruct Hposts; reflexivity].
      exists m, c, ch. auto.
  - rewrite handleChannelMessage_not_plain in Hposts by exact E.
    destruct Hposts. reflexivity.
Qed.

(** *** The claims *)

(** C1: a live event (new or edited message) whose origin chat, the channel
    the API resolves the peer of its message to, is not the watched chat is
    skipped: the handler returns nil, and its only effect is the look-up, so
    [sendMessage] is not called and nothing is logged. *)
Theorem live_event_of_other_chat_is_skipped
    cfg msg c chats channel others (w w1 : World) :
  Message_PeerID msg = PeerChannel c ->
  ChannelsGetChannels w [mkInputChannel c 0] = (inr chats, w1) ->
  GetChats chats = ChannelC channel :: others ->
  Channel_ID channel <> ChatForWatch (TgApp cfg) ->
  handleNewChannelMessage cfg {| UpdateNew_Message := MessageC msg |} w
  = (Returned None, w1,
     [EvChannelsGetChannels [mkInputChannel c 0] (inr chats)]) /\
  handleEditChannelMessage cfg {| UpdateEdit_Message := MessageC msg |} w
  = (Returned None, w1,
     [EvChannelsGetChannels [mkInputChannel c 0] (inr chats)]) /\
  posts (handleNewChannelMessage cfg
           {| UpdateNew_Message := MessageC msg |} w).2 = [] /\
  posts (handleEditChannelMessage cfg
           {| UpdateEdit_Message := MessageC msg |} w).2 = [].
Proof.
  intros Hpeer Hres Hchats Hid.
  assert (Hrun : forall ty,
    handleChannelMessage cfg ty (MessageC msg) w
    = (Returned None, w1,
       [EvChannelsGetChannels [mkInputChannel c 0] (inr chats)])).
  { intros ty. rewrite (handleChannelMessage_run cfg ty msg c w Hpeer).
    rewrite Hres. cbn [fst snd]. rewrite (resolved_channel _ _ _ Hchats).
    destruct (decide (Channel_ID channel = ChatForWatch (TgApp cfg)));
      [contradiction|reflexivity]. }
  rewrite handleNew_generic, handleEdit_generic. cbn [UpdateNew_Message
    UpdateEdit_Message]. rewrite !Hrun. repeat split; reflexivity.
Qed.

(** C2: a plain message of the watched chat is relayed with its own
    identifier and text, as ["newMessage"] by the handler of new messages
    and as ["editMessage"] by the handler of edits; the backfill relays
    every plain message of a page, in order, as ["oldMessage"], and sends
    nothing else. *)
Theorem watched_plain_message_is_relayed
    cfg msg c chats channel others (w w1 : World) :
  Message_PeerID msg = PeerChannel c ->
  ChannelsGetChannels w [mkInputChannel c 0] = (inr chats, w1) ->
  GetChats chats = ChannelC channel :: others ->
  Channel_ID channel = ChatForWatch (TgApp cfg) ->
  ((handleNewChannelMessage cfg {| UpdateNew_Message := MessageC msg |} w).1.1
   = Returned None /\
   posts (handleNewChannelMessage cfg
            {| UpdateNew_Message := MessageC msg |} w).2
   = [(WebhookUrl (TgApp cfg), "application/json",
       postBody (Message_text msg) "newMessage" (Message_ID msg))]) /\
  ((handleEditChannelMessage cfg
      {| UpdateEdit_Message := MessageC msg |} w).1.1
   = Returned None /\
   posts (handleEditChannelMessage cfg
            {| UpdateEdit_Message := MessageC msg |} w).2
   = [(WebhookUrl (TgApp cfg), "application/json",
       postBody (Message_text msg) "editMessage" (Message_ID msg))]) /\
  (forall page (w' : World),
     posts (process_page cfg page w').2
     = (fun m => (WebhookUrl (TgApp cfg), "application/json",
                  postBody (Message_text m) "oldMessage" (Message_ID m)))
       <$> omap as_Message page) /\
  (forall fuel (w' : World),
     Forall (fun p => exists m : Message,
               p = (WebhookUrl (TgApp cfg), "application/json",
                    postBody (Message_text m) "oldMessage" (Message_ID m)))
       (posts (fetchAndProcessMessages fuel cfg w').2)).
Proof.
  intros Hpeer Hres Hchats Hid.
  assert (Hrun : forall ty,
    (handleChannelMessage cfg ty (MessageC msg) w).1.1 = Returned None /\
    posts (handleChannelMessage cfg ty (MessageC msg) w).2
    = [(WebhookUrl (TgApp cfg), "application/json",
        postBody (Message_text msg) ty (Message_ID msg))]).
  { intros ty. rewrite (handleChannelMessage_run cfg ty msg c w Hpeer).
    rewrite Hres. cbn [fst snd]. rewrite (resolved_channel _ _ _ Hchats).
    destruct (decide (Channel_ID channel = ChatForWatch (TgApp cfg)));
      [|contradiction].
    split; [reflexivity|]. unfold relayed_trace.
    destruct (delivery_error _); reflexivity. }
  rewrite handleNew_generic, handleEdit_generic.
  cbn [UpdateNew_Message UpdateEdit_Message].
  split; [apply Hrun|]. split; [apply Hrun|].
  split; [intros; apply process_page_posts|].
  intros fuel w'. rewrite fetchAndProcessMessages_run.
  destruct (resolved _) as [err|ch]; cbn [snd]; [constructor|].
  apply history_loop_posts.
Qed.


(** C5: [sendMessage] makes exactly one request, a POST of content type
    [application/json] whose body has the three members [external_id],
    [text] and [type]: the text and the type as passed in, the identifier in
    decimal.  The type is ["newMessage"] for every request of the handler of
    new messages, ["editMessage"] for the handler of edits and
    ["oldMessage"] for the backfill. *)
Theorem sendMessage_wire_format text url ty id cfg (w : World) :
  posts (sendMessage text url ty id w).2
  = [(url, "application/json", postBody text ty id)] /\
  (postBody text ty id).*1 = ["external_id"; "text"; "type"] /\
  field "text" (postBody text ty id) = Some text /\
  field "type" (postBody text ty id) = Some ty /\
  field "external_id" (postBody text ty id) = Some (Itoa id) /\
  Atoi (Itoa id) = Some id /\
  (forall update,
     Forall (fun p => field "type" p.2 = Some "newMessage")
       (posts (handleNewChannelMessage cfg update w).2)) /\
  (forall update,
     Forall (fun p => field "type" p.2 = Some "editMessage")
       (posts (handleEditChannelMessage cfg update w).2)) /\
  (forall fuel,
     Forall (fun p => field "type" p.2 = Some "oldMessage")
       (posts (fetchAndProcessMessages fuel cfg w).2)).
Proof.
  split; [rewrite sendMessage_run; reflexivity|].
  do 4 (split; [reflexivity|]). split; [apply Atoi_Itoa|].
  assert (Hlive : forall ty' payload,
    Forall (fun p => field "type" p.2 = Some ty')
      (posts (handleChannelMessage cfg ty' payload w).2)).
  { intros ty' payload. destruct (as_Message payload) as [m|] eqn:E.
    - destruct payload; try discriminate. injection E as ->.
      destruct (Message_PeerID m) as [u|g|c] eqn:Hpeer.
      + rewrite handleChannelMessage_not_channel by congruence. constructor.
      + rewrite handleChannelMessage_not_channel by congruence. constructor.
      + rewrite (handleChannelMessage_run cfg ty' m c w Hpeer).
        destruct (resolved _) as [err|ch]; [constructor|].
        destruct (decide _); [|constructor]. cbn [snd].
        unfold relayed_trace. destruct (delivery_error _);
          repeat constructor.
    - rewrite handleChannelMessage_not_plain by exact E. constructor. }
  split; [intros update; rewrite handleNew_generic; apply Hlive|].
  split; [intros update; rewrite handleEdit_generic; apply Hlive|].
  intros fuel. rewrite fetchAndProcessMessages_run.
  destruct (resolved _) as [err|ch]; cbn [snd]; [constructor|].
  rewrite posts_resolution_cons.
  eapply Forall_impl; [apply history_loop_posts|].
  intros p [m ->]. reflexivity.
Qed.

(** C6, evaluated on the code: a live event whose payload is a service
    message or an empty message is not skipped.  The comma-ok assertion
    leaves a nil message, the peer of a nil message is a nil interface, and
    the assertion of that peer to a channel panics, in both handlers and
    before any effect. *)
Theorem non_message_live_event_panics cfg id peer (w : World) :
  handleNewChannelMessage cfg
    {| UpdateNew_Message := MessageServiceC id peer |} w
  = (Panicked "interface conversion: tg.PeerClass is nil, not *tg.PeerChannel",
     w, []) /\
  handleEditChannelMessage cfg
    {| UpdateEdit_Message := MessageServiceC id peer |} w
  = (Panicked "interface conversion: tg.PeerClass is nil, not *tg.PeerChannel",
     w, []) /\
  handleNewChannelMessage cfg {| UpdateNew_Message := MessageEmptyC id |} w
  = (Panicked "interface conversion: tg.PeerClass is nil, not *tg.PeerChannel",
     w, []) /\
  handleEditChannelMessage cfg {| UpdateEdit_Message := MessageEmptyC id |} w
  = (Panicked "interface conversion: tg.PeerClass is nil, not *tg.PeerChannel",
     w, []).
Proof. repeat split; reflexivity. Qed.

(** C8: [sendMessage] returns an error exactly when the POST fails or is
    answered with a status other than 200; a transport error is returned as
    it is, a bad status as an error that carries the code; and the trace of
    the call holds one request, whatever the answer. *)
Theorem sendMessage_fails_iff_post_fails text url ty id (w : World) :
  exists answer err,
    (http_Post w url "application/json" (postBody text ty id)).1 = answer /\
    (sendMessage text url ty id w).1.1 = Returned err /\
    (is_Some err <->
       (exists e, answer = inl e) \/
       (exists resp, answer = inr resp /\ StatusCode resp <> 200)) /\
    (forall e, answer = inl e -> err = Some e) /\
    (forall resp, answer = inr resp -> StatusCode resp <> 200 ->
       err = Some ("unexpected status code: " +:+ Itoa (StatusCode resp))) /\
    (sendMessage text url ty id w).2
    = [EvHttpPost url "application/json" (postBody text ty id) answer] /\
    length (posts (sendMessage text url ty id w).2) = 1%nat.
Proof.
  rewrite sendMessage_run. cbn [fst snd].
  destruct (http_Post w url "application/json" (postBody text ty id)).1
    as [e|resp] eqn:E.
  - exists (inl e), (Some e). repeat split; eauto; try congruence.
  - exists (inr resp), (delivery_error (inr resp)). unfold delivery_error.
    split; [reflexivity|]. split; [reflexivity|].
    unfold http_StatusOK.
    destruct (decide (StatusCode resp ≠ 200)) as [Hne|Heq].
    + repeat split; eauto; try congruence.
    + repeat split; try congruence.
      * intros [x Hx]. discriminate.
      * intros [[e He]|[resp' [[= <-] Hne]]]; [discriminate|contradiction].
      * intros resp' [= <-] Hne. contradiction.
Qed.

(** C9: [getChannel] returns an error exactly when the API call fails, when
    the list of chats is empty, or when its first entry is no channel;
    otherwise it returns that first entry.  Its trace is the one API call. *)
Theorem getChannel_fails_iff channelID (w : World) :
  exists answer result,
    (ChannelsGetChannels w [mkInputChannel channelID 0]).1 = answer /\
    getChannel channelID w
    = (Returned result,
       (ChannelsGetChannels w [mkInputChannel channelID 0]).2,
       [EvChannelsGetChannels [mkInputChannel channelID 0] answer]) /\
    ((exists err, result = inl err) <->
       (exists e, answer = inl e) \/
       (exists chats, answer = inr chats /\ GetChats chats = []) \/
       (exists chats first, answer = inr chats /\
          head (GetChats chats) = Some first /\
          forall channel, first <> ChannelC channel)) /\
    (forall channel,
       result = inr channel <->
       exists chats, answer = inr chats /\
         head (GetChats chats) = Some (ChannelC channel)).
Proof.
  rewrite getChannel_run.
  destruct (ChannelsGetChannels w [mkInputChannel channelID 0]).1
    as [e|chats] eqn:E; eexists _, _; (split; [reflexivity|]);
    (split; [reflexivity|]); cbn [resolved].
  - split; [split; eauto|]. intros channel. split; [discriminate|].
    intros [chats [[=] _]].
  - destruct (GetChats chats) as [|first rest] eqn:Hchats.
    + split.
      * split; [intros _; right; left; eauto|eauto].
      * intros channel. split; [discriminate|].
        intros [chats' [[= <-] Hhead]]. rewrite Hchats in Hhead. discriminate.
    + assert (Hother : (forall channel, first <> ChannelC channel) ->
        (exists err : error, @inl error Channel "unexpected chat type" = inl err) <->
        (exists e : error, @inr error _ chats = inl e) \/
        (exists chats0, @inr error _ chats = inr chats0 /\ GetChats chats0 = []) \/
        (exists chats0 first0, @inr error _ chats = inr chats0 /\
           head (GetChats chats0) = Some first0 /\
           forall channel, first0 <> ChannelC channel)).
      { intros Hne. split; [|eauto]. intros _. right. right.
        exists chats, first. rewrite Hchats. auto. }
      assert (Hnone : (forall channel, first <> ChannelC channel) ->
        forall channel,
        @inl error Channel "unexpected chat type" = inr channel <->
        exists chats0, @inr error _ chats = inr chats0 /\
          head (GetChats chats0) = Some (ChannelC channel)).
      { intros Hne channel. split; [discriminate|].
        intros [chats' [[= <-] Hhead]]. rewrite Hchats in Hhead.
        injection Hhead as ->. destruct (Hne channel). reflexivity. }
      destruct first as [i|i|i|ch|i];
        try (split; [apply Hother|apply Hnone]; intros; discriminate).
      split.
      * split; [intros [err [=]]|].
        intros [[e [=]]|[[chats' [[= <-] Hnil]]|
                         [chats' [first' [[= <-] [Hhead Hne]]]]]].
        -- rewrite Hchats in Hnil. discriminate.
        -- rewrite Hchats in Hhead. injection Hhead as <-.
           destruct (Hne ch). reflexivity.
      * intros channel. split.
        -- intros [= <-]. exists chats. rewrite Hchats. auto.
        -- intros [chats' [[= <-] Hhead]]. rewrite Hchats in Hhead.
           injection Hhead as ->. reflexivity.
Qed.

(** A plain message of a channel makes the handler return, after exactly
    one look-up, of the channel of the message. *)
Lemma handleChannelMessage_resolves cfg ty msg c (w : World) :
  Message_PeerID msg = PeerChannel c ->
  exists r w' t,
    handleChannelMessage cfg ty (MessageC msg) w = (Returned r, w', t) /\
    resolutions t = [[mkInputChannel c 0]].
Proof.
  intros Hpeer. rewrite (handleChannelMessage_run cfg ty msg c w Hpeer).
  destruct (resolved _) as [err|ch]; [eexists _, _, _; split; reflexivity|].
  destruct (decide _); eexists _, _, _; (split; [reflexivity|]);
    [|reflexivity].
  unfold relayed_trace. destruct (delivery_error _); reflexivity.
Qed.

(** Every request of the loop is made for the peer the loop was started
    with, and asks for a hundred entries. *)
Lemma history_loop_requests fuel cfg peer o (w : World) :
  Forall (fun x => Req_Peer x.1 = peer /\ Req_Limit x.1 = 100)
    (history_exchanges (history_loop fuel cfg peer o w).2).
Proof.
  revert o w. induction fuel as [|fuel IH]; intros o w; [constructor|].
  loop_turn fuel cfg peer o w; cbn [snd];
    rewrite ?history_exchanges_cons, ?history_exchanges_app,
      ?process_page_exchanges; cbn [app];
    repeat constructor.
  apply IH.
Qed.

(** C10, as the code has it: nothing is cached.  Every live event with a
    plain message of a channel triggers one look-up of that channel, so two
    events in a row trigger two.  A backfill run looks the watched chat up
    once, as the first thing it does, however many pages it fetches; every
    page request it makes is made for the peer built from the identifier and
    the access hash of the channel that look-up returned, and when the
    look-up gave no channel it fetches no page at all. *)
Theorem resolution_is_per_event
    cfg msg1 msg2 c1 c2 (w : World) :
  Message_PeerID msg1 = PeerChannel c1 ->
  Message_PeerID msg2 = PeerChannel c2 ->
  resolutions (handleNewChannelMessage cfg
                 {| UpdateNew_Message := MessageC msg1 |} w).2
  = [[mkInputChannel c1 0]] /\
  resolutions (handleEditChannelMessage cfg
                 {| UpdateEdit_Message := MessageC msg1 |} w).2
  = [[mkInputChannel c1 0]] /\
  resolutions
    (bind (handleNewChannelMessage cfg
             {| UpdateNew_Message := MessageC msg1 |})
          (fun _ => handleNewChannelMessage cfg
                      {| UpdateNew_Message := MessageC msg2 |}) w).2
  = [[mkInputChannel c1 0]; [mkInputChannel c2 0]] /\
  (forall fuel (w' : World),
     resolutions (fetchAndProcessMessages fuel cfg w').2
     = [[mkInputChannel (ChatForWatch (TgApp cfg)) 0]] /\
     head (fetchAndProcessMessages fuel cfg w').2
     = Some (EvChannelsGetChannels
               [mkInputChannel (ChatForWatch (TgApp cfg)) 0]
               (ChannelsGetChannels w'
                  [mkInputChannel (ChatForWatch (TgApp cfg)) 0]).1) /\
     (forall channel,
        resolved (ChannelsGetChannels w'
                    [mkInputChannel (ChatForWatch (TgApp cfg)) 0]).1
        = inr channel ->
        Forall (fun x =>
                  Req_Peer x.1
                  = mkInputPeerChannel (Channel_ID channel)
                      (Channel_AccessHash channel))
          (history_exchanges (fetchAndProcessMessages fuel cfg w').2)) /\
     (forall err,
        resolved (ChannelsGetChannels w'
                    [mkInputChannel (ChatForWatch (TgApp cfg)) 0]).1
        = inl err ->
        history_exchanges (fetchAndProcessMessages fuel cfg w').2 = [])).
Proof.
  intros Hpeer1 Hpeer2. rewrite !handleNew_generic, handleEdit_generic.
  cbn [UpdateNew_Message UpdateEdit_Message].
  destruct (handleChannelMessage_resolves cfg "newMessage" msg1 c1 w Hpeer1)
    as (r & w1 & t & Hrun & Hres).
  destruct (handleChannelMessage_resolves cfg "editMessage" msg1 c1 w Hpeer1)
    as (r' & w1' & t' & Hrun' & Hres').
  split; [rewrite Hrun; exact Hres|]. split; [rewrite Hrun'; exact Hres'|].
  split.
  - rewrite (bind_returned _
      (fun _ => handleChannelMessage cfg "newMessage" (MessageC msg2))
      _ _ _ _ Hrun).
    cbn [snd]. rewrite resolutions_app, Hres.
    destruct (handleChannelMessage_resolves cfg "newMessage" msg2 c2 w1 Hpeer2)
      as (r2 & w2 & t2 & Hrun2 & Hres2).
    rewrite Hrun2. cbn [snd]. rewrite Hres2. reflexivity.
  - intros fuel w'. rewrite fetchAndProcessMessages_run.
    destruct (resolved _) as [err|ch]; cbn [snd head].
    + split; [reflexivity|]. split; [reflexivity|].
      split; [intros channel [=]|reflexivity].
    + split.
      { change (resolutions (EvChannelsGetChannels ?req ?a :: ?t))
          with (req :: resolutions t).
        rewrite history_loop_resolutions. reflexivity. }
      split; [reflexivity|].
      rewrite history_exchanges_resolution_cons.
      split; [|intros err [=]].
      intros channel [= <-].
      eapply Forall_impl; [apply history_loop_requests|].
      intros x [Hx _]. exact Hx.
Qed.








(** *** The loop over a served history *)

Lemma filter_none {A} (P : A -> Prop) `{!forall x, Decision (P x)} l :
  Forall (fun x => ~ P x) l -> filter P l = [].
Proof.
  induction 1 as [|x l Hx Hl IH]; [reflexivity|].
  rewrite filter_cons_False by exact Hx. exact IH.
Qed.

Lemma filter_all {A} (P : A -> Prop) `{!forall x, Decision (P x)} l :
  Forall P l -> filter P l = l.
Proof.
  induction 1 as [|x l Hx Hl IH]; [reflexivity|].
  rewrite filter_cons_True by exact Hx. rewrite IH. reflexivity.
Qed.

(** In a history listed newest first, the entries older than an entry are
    the ones listed after it. *)
Lemma filter_older_after pre m suf :
  StronglySorted (fun a b => entry_ID b < entry_ID a) (pre ++ m :: suf) ->
  0 < entry_ID m ->
  filter (fun x => entry_ID m = 0 \/ entry_ID x < entry_ID m)
    (pre ++ m :: suf) = suf.
Proof.
  intros Hsorted Hpos.
  apply StronglySorted_app in Hsorted as (Hcross & _ & Hright).
  apply StronglySorted_cons in Hright as [Hsuf _].
  rewrite filter_app, filter_cons_False by lia.
  rewrite filter_none, filter_all; [reflexivity| |].
  - eapply Forall_impl; [exact Hsuf|]. intros x Hx. right. exact Hx.
  - apply Forall_forall. intros x Hx.
    specialize (Hcross x m Hx (list_elem_of_here _ _)). cbn beta in Hcross. lia.
Qed.

Lemma page_sizes_page req page cfg (w : World) :
  page_sizes (EvMessagesGetHistory req (inr (MessagesChannelMessages page))
              :: (process_page cfg page w).2)
  = [length page].
Proof.
  unfold page_sizes. rewrite history_exchanges_cons, process_page_exchanges.
  reflexivity.
Qed.

Lemma page_sizes_turn req page cfg (w : World) t :
  page_sizes (EvMessagesGetHistory req (inr (MessagesChannelMessages page))
              :: (process_page cfg page w).2 ++ t)
  = length page :: page_sizes t.
Proof.
  unfold page_sizes. rewrite history_exchanges_cons, history_exchanges_app,
    process_page_exchanges. reflexivity.
Qed.

(** The loop over the part [rest] of a served history that is older than
    its cursor: [n] full pages and a short one, then it returns. *)
Lemma history_loop_served hist cfg peer :
  serves hist -> newest_first hist ->
  forall (n r fuel : nat) pre rest o (w : World),
    hist = pre ++ rest ->
    filter (fun x => o = 0 \/ entry_ID x < o) hist = rest ->
    plain_at_boundaries rest ->
    length rest = (100 * n + r)%nat -> (r < 100)%nat -> (n < fuel)%nat ->
    (history_loop fuel cfg peer o w).1.1 = Returned None /\
    page_sizes (history_loop fuel cfg peer o w).2 = replicate n 100%nat ++ [r].
Proof.
  intros Hserve [Hsorted Hpos].
  induction n as [|n IH]; intros r fuel pre rest o w Hhist Holder Hplain
    Hlen Hr Hfuel; (destruct fuel as [|fuel]; [lia|]);
    pose proof (Hserve w (mkHistoryRequest peer o 100)) as E;
    unfold history_page in E; cbn [Req_OffsetID Req_Limit] in E;
    change (Z.to_nat 100) with 100%nat in E; rewrite Holder in E.
  - rewrite take_ge in E by lia.
    rewrite (history_loop_short fuel cfg peer o w rest E) by lia.
    cbn [fst snd]. split; [reflexivity|].
    rewrite page_sizes_page. cbn [replicate app]. f_equal. lia.
  - assert (Hm : is_Some (rest !! 99%nat)) by (apply lookup_lt_is_Some; lia).
    destruct Hm as [m Hm].
    destruct (Hplain 0%nat m Hm) as [msg Hmsg].
    destruct m; try discriminate. cbn [as_Message] in Hmsg.
    injection Hmsg as ->.
    assert (Hlast : last (take 100 rest) = Some (MessageC msg)).
    { rewrite last_lookup, length_take_le by lia. cbn [pred].
      rewrite lookup_take_lt by lia. exact Hm. }
    rewrite (history_loop_full fuel cfg peer o w (take 100 rest) msg E)
      by (rewrite ?length_take_le by lia; first [lia|exact Hlast]).
    cbn [fst snd].
    assert (Hsplit : hist
      = (pre ++ take 99 rest) ++ MessageC msg :: drop 100 rest).
    { rewrite Hhist, <- app_assoc. f_equal.
      symmetry. apply (take_drop_middle rest 99 _ Hm). }
    assert (Hmpos : 0 < Message_ID msg).
    { rewrite Forall_forall in Hpos. apply (Hpos (MessageC msg)).
      rewrite Hsplit. apply elem_of_app. right. apply list_elem_of_here. }
    specialize (IH r fuel (pre ++ take 100 rest) (drop 100 rest)
      (Message_ID msg)
      (process_page cfg (take 100 rest)
         (MessagesGetHistory w (mkHistoryRequest peer o 100)).2).1.2).
    destruct IH as [Hret Hsizes].
    + rewrite Hhist, <- app_assoc, take_drop. reflexivity.
    + rewrite Hsplit at 1.
      apply (filter_older_after (pre ++ take 99 rest) (MessageC msg)
               (drop 100 rest)); [rewrite <- Hsplit; exact Hsorted|exact Hmpos].
    + intros k m' Hk. apply (Hplain (S k) m').
      rewrite lookup_drop in Hk. rewrite <- Hk. f_equal. lia.
    + rewrite length_drop. lia.
    + exact Hr.
    + lia.
    + split; [exact Hret|].
      rewrite page_sizes_turn, Hsizes, length_take_le by lia. reflexivity.
Qed.

(** C4, as the code has it: over a history of [N] entries, listed newest
    first and with a plain message at the end of every full page, the
    backfill returns after [N / 100 + 1] page fetches: [N / 100] full pages
    of a hundred and a last, short page of [N mod 100] entries, which is
    empty when a hundred divides [N].  More fuel changes nothing: no fetch
    follows the short page. *)
Theorem backfill_stops_at_the_short_page
    hist cfg chats channel others fuel (w w1 : World) :
  serves hist -> newest_first hist -> plain_at_boundaries hist ->
  ChannelsGetChannels w [mkInputChannel (ChatForWatch (TgApp cfg)) 0]
    = (inr chats, w1) ->
  GetChats chats = ChannelC channel :: others ->
  (length hist / 100 < fuel)%nat ->
  (fetchAndProcessMessages fuel cfg w).1.1 = Returned None /\
  page_sizes (fetchAndProcessMessages fuel cfg w).2
  = replicate (length hist / 100) 100%nat ++ [(length hist mod 100)%nat] /\
  length (history_exchanges (fetchAndProcessMessages fuel cfg w).2)
  = (length hist / 100 + 1)%nat.
Proof.
  intros Hserve Hnewest Hplain Hres Hchats Hfuel.
  rewrite fetchAndProcessMessages_run, Hres. cbn [fst snd].
  rewrite (resolved_channel _ _ _ Hchats). cbn [fst snd].
  destruct (history_loop_served hist cfg
    (mkInputPeerChannel (Channel_ID channel) (Channel_AccessHash channel))
    Hserve Hnewest (length hist / 100)%nat (length hist mod 100)%nat fuel
    [] hist 0 w1) as [Hret Hsizes]; try assumption.
  - reflexivity.
  - apply filter_all. apply Forall_true. intros x. left. reflexivity.
  - apply Nat.div_mod_eq.
  - apply Nat.mod_upper_bound. lia.
  - split; [exact Hret|].
    assert (Hsizes' : page_sizes
      (EvChannelsGetChannels [mkInputChannel (ChatForWatch (TgApp cfg)) 0]
         (inr chats)
       :: (history_loop fuel cfg
             (mkInputPeerChannel (Channel_ID channel)
                (Channel_AccessHash channel)) 0 w1).2)
      = replicate (length hist / 100) 100%nat ++ [(length hist mod 100)%nat]).
    { rewrite <- Hsizes. reflexivity. }
    split; [exact Hsizes'|].
    apply (f_equal length) in Hsizes'. unfold page_sizes in Hsizes'.
    rewrite length_fmap, length_app, length_replicate in Hsizes'.
    exact Hsizes'.
Qed.

End Properties.

(** ** The claims on concrete worlds *)

Lemma serving_serves hist : serves (H := serving hist) hist.
Proof. intros w req. reflexivity. Qed.


Lemma all_plain_at_boundaries hist :
  Forall (fun m => is_Some (as_Message m)) hist -> plain_at_boundaries hist.
Proof.
  intros Hall k m Hm. rewrite Forall_forall in Hall.
  apply Hall. apply (list_elem_of_lookup_2 _ _ _ Hm).
Qed.

Lemma plain_history_plain n :
  Forall (fun m => is_Some (as_Message m)) (plain_history n).
Proof. apply Forall_fmap, Forall_true. intros i. simpl. eauto. Qed.

Lemma plain_history_250_newest_first : newest_first (plain_history 250).
Proof.
  unfold newest_first. apply (bool_decide_unpack _). vm_compute. exact I.
Qed.

(** The scenario of the specification: watched chat 42, an edit of message 7
    of chat 42 with the text "Hello". *)
Example edit_of_message_7 :
  posts (handleEditChannelMessage (H := serving []) watch42
           {| UpdateEdit_Message := MessageC hello7 |} 1%nat).2
  = [("http://hook.example/in", "application/json",
      [("external_id", "7"); ("text", "Hello"); ("type", "editMessage")])].
Proof. reflexivity. Qed.

(** The scenario of the specification: a history of 250 messages is fetched
    in three pages of 100, 100 and 50 entries and relayed in 250 requests. *)
Example backfill_of_250 :
  page_sizes (fetchAndProcessMessages (H := serving (plain_history 250))
                5 watch42 0%nat).2 = [100; 100; 50]%nat /\
  cursors (fetchAndProcessMessages (H := serving (plain_history 250))
             5 watch42 0%nat).2 = [0; 151; 51] /\
  length (posts (fetchAndProcessMessages (H := serving (plain_history 250))
                   5 watch42 0%nat).2) = 250%nat.
Proof. vm_compute. repeat split. Qed.

(** A history of one full page whose oldest entry is a service message: the
    backfill relays the 99 plain messages and panics when it advances the
    cursor. *)
Example backfill_panics_at_service_boundary :
  length young_channel = 100%nat /\
  (fetchAndProcessMessages (H := serving young_channel) 5 watch42 0%nat).1.1
  = Panicked
      "interface conversion: tg.MessageClass is *tg.MessageService, not *tg.Message"
  /\
  length (posts (fetchAndProcessMessages (H := serving young_channel)
                   5 watch42 0%nat).2) = 99%nat.
Proof. vm_compute. repeat split. Qed.

(** C7 at the input that breaks it.  The history [young_channel] is listed
    newest first with positive identifiers, and the history call serves it
    as the contract says: one full page of a hundred entries, the oldest of
    which is the service message with the identifier 1.  The claim has the
    cursor advanced to 1 after that page.  The code reads the identifier
    through an unchecked assertion that the last entry is a plain message,
    so the run panics there: whatever the fuel, the only offset ever
    requested is the initial [0]. *)
Theorem cursor_is_not_advanced_past_a_service_message :
  newest_first young_channel /\
  serves (H := serving young_channel) young_channel /\
  entry_ID <$> last young_channel = Some 1 /\
  forall fuel,
    page_sizes (fetchAndProcessMessages (H := serving young_channel)
                  (S fuel) watch42 0%nat).2 = [100%nat] /\
    cursors (fetchAndProcessMessages (H := serving young_channel)
               (S fuel) watch42 0%nat).2 = [0] /\
    (fetchAndProcessMessages (H := serving young_channel)
       (S fuel) watch42 0%nat).1.1
    = Panicked
        "interface conversion: tg.MessageClass is *tg.MessageService, not *tg.Message".
Proof.
  split.
  { unfold newest_first. apply (bool_decide_unpack _). vm_compute. exact I. }
  split; [apply serving_serves|]. split; [reflexivity|].
  intros fuel.
  rewrite (fetchAndProcessMessages_run (H := serving young_channel)).
  cbn [ChannelsGetChannels serving resolved GetChats fst snd].
  rewrite (history_loop_boundary_panic (H := serving young_channel) fuel
             watch42 _ 0 0%nat young_channel
             (MessageServiceC 1 (PeerChannel 42)));
    [|reflexivity|vm_compute; lia|reflexivity|reflexivity].
  cbn [fst snd]. unfold page_sizes, cursors.
  rewrite history_exchanges_resolution_cons, history_exchanges_cons,
    (process_page_exchanges (H := serving young_channel)).
  repeat split.
Qed.

(** *** Witnesses *)

Lemma live_event_of_other_chat_is_skipped_witness :
  handleNewChannelMessage (H := serving []) watch42
    {| UpdateNew_Message := MessageC other8 |} 0%nat
  = (Returned None, 0%nat,
     [EvChannelsGetChannels [mkInputChannel 5 0]
        (inr (MessagesChats [ChannelC (mkChannel 5 77)]))]) /\
  handleEditChannelMessage (H := serving []) watch42
    {| UpdateEdit_Message := MessageC other8 |} 0%nat
  = (Returned None, 0%nat,
     [EvChannelsGetChannels [mkInputChannel 5 0]
        (inr (MessagesChats [ChannelC (mkChannel 5 77)]))]) /\
  posts (handleNewChannelMessage (H := serving []) watch42
           {| UpdateNew_Message := MessageC other8 |} 0%nat).2 = [] /\
  posts (handleEditChannelMessage (H := serving []) watch42
           {| UpdateEdit_Message := MessageC other8 |} 0%nat).2 = [].
Proof.
  apply (live_event_of_other_chat_is_skipped (H := serving []) watch42 other8
           5 (MessagesChats [ChannelC (mkChannel 5 77)]) (mkChannel 5 77) []
           0%nat 0%nat);
    [reflexivity|reflexivity|reflexivity|discriminate].
Defined.

Lemma watched_plain_message_is_relayed_witness :
  posts (handleNewChannelMessage (H := serving []) watch42
           {| UpdateNew_Message := MessageC hello7 |} 0%nat).2
  = [("http://hook.example/in", "application/json",
      postBody "Hello" "newMessage" 7)].
Proof.
  apply (watched_plain_message_is_relayed (H := serving []) watch42 hello7
           42 (MessagesChats [ChannelC (mkChannel 42 77)]) (mkChannel 42 77) []
           0%nat 0%nat);
    reflexivity.
Defined.


Lemma resolution_is_per_event_witness :
  resolutions
    (bind (H := serving [])
       (handleNewChannelMessage watch42
          {| UpdateNew_Message := MessageC hello7 |})
       (fun _ => handleNewChannelMessage watch42
                   {| UpdateNew_Message := MessageC other8 |}) 0%nat).2
  = [[mkInputChannel 42 0]; [mkInputChannel 5 0]].
Proof.
  apply (resolution_is_per_event (H := serving []) watch42 hello7 other8
           42 5 0%nat);
    reflexivity.
Defined.


Lemma backfill_stops_at_the_short_page_witness :
  length (history_exchanges
            (fetchAndProcessMessages (H := serving (plain_history 250))
               5 watch42 0%nat).2) = 3%nat.
Proof.
  apply (backfill_stops_at_the_short_page (H := serving (plain_history 250))
           (plain_history 250) watch42
           (MessagesChats [ChannelC (mkChannel 42 77)]) (mkChannel 42 77) []
           5 0%nat 0%nat).
  - apply serving_serves.
  - apply plain_history_250_newest_first.
  - apply all_plain_at_boundaries, plain_history_plain.
  - reflexivity.
  - reflexivity.
  - vm_compute. lia.
Defined.

(** *** Counterexamples to the claims as they were stated *)

(** C4 as stated: a history of 100 messages and pages of 100 would take
    [ceil (100 / 100) = 1] fetch.  The one page is full, so the loop fetches
    again and stops at the empty page: two fetches. *)
Lemma backfill_of_100_fetches_twice :
  page_sizes (fetchAndProcessMessages (H := serving (plain_history 100))
                5 watch42 0%nat).2 = [100; 0]%nat /\
  length (history_exchanges
            (fetchAndProcessMessages (H := serving (plain_history 100))
               5 watch42 0%nat).2)
  <> ceil_div (length (plain_history 100)) 100.
Proof. vm_compute. split; [reflexivity|discriminate]. Qed.

(** C10 as stated: the watched chat would be resolved at most once per run.
    Two messages of the watched chat in a row make the relay resolve it
    twice. *)
Lemma watched_chat_is_resolved_for_every_event :
  resolutions
    (bind (H := serving [])
       (handleNewChannelMessage watch42
          {| UpdateNew_Message := MessageC hello7 |})
       (fun _ => handleNewChannelMessage watch42
                   {| UpdateNew_Message :=
                        MessageC (mkMessage 8 (PeerChannel 42) "again") |})
       0%nat).2
  = [[mkInputChannel 42 0]; [mkInputChannel 42 0]] /\
  ~ (length
       (resolutions
          (bind (H := serving [])
             (handleNewChannelMessage watch42
                {| UpdateNew_Message := MessageC hello7 |})
             (fun _ => handleNewChannelMessage watch42
                         {| UpdateNew_Message :=
                              MessageC (mkMessage 8 (PeerChannel 42) "again") |})
             0%nat).2) <= 1)%nat.
Proof. vm_compute. split; [reflexivity|lia]. Qed.

(** ** Further properties of the relay *)

(** The case analysis of one turn of the history loop. *)
Ltac loop_case fuel cfg peer o w :=
  let a := fresh "a" in let E := fresh "E" in
  let page := fresh "page" in let m := fresh "m" in
  let Hlast := fresh "Hlast" in let Hm := fresh "Hm" in
  let msg := fresh "msg" in let Hlen := fresh "Hlen" in
  let unexpected :=
    (rewrite (history_loop_unexpected fuel cfg peer o w _ E
                ltac:(intros; discriminate))) in
  destruct ((MessagesGetHistory w (mkHistoryRequest peer o 100)).1)
    as [err|a] eqn:E;
  [ rewrite (history_loop_error fuel cfg peer o w err E)
  | destruct a as [?|? ?|page|?];
    [ unexpected
    | unexpected
    | destruct (decide (length page < 100)%nat) as [Hlen|Hlen];
      [ rewrite (history_loop_short fuel cfg peer o w page E Hlen)
      | destruct (last page) as [m|] eqn:Hlast;
        [ destruct (as_Message m) as [msg|] eqn:Hm;
          [ destruct m; try discriminate; injection Hm as ->;
            rewrite (history_loop_full fuel cfg peer o w page msg E
                       ltac:(lia) Hlast)
          | rewrite (history_loop_boundary_panic fuel cfg peer o w page m E
                       ltac:(lia) Hlast Hm) ]
        | apply last_None in Hlast; subst page; simpl in Hlen; lia ] ]
    | unexpected ] ].

Section Further.
Context `{Outside}.

(** A live event whose channel cannot be resolved (the API call fails, the
    list of chats is empty or its first entry is no channel) is dropped with
    the error: the handler logs it as "get channel" and returns it, and
    the webhook is not called. *)
Theorem unresolved_channel_is_reported cfg msg c err (w : World) :
  Message_PeerID msg = PeerChannel c ->
  resolved (ChannelsGetChannels w [mkInputChannel c 0]).1 = inl err ->
  handleNewChannelMessage cfg {| UpdateNew_Message := MessageC msg |} w
  = (Returned (Some err),
     (ChannelsGetChannels w [mkInputChannel c 0]).2,
     [EvChannelsGetChannels [mkInputChannel c 0]
        (ChannelsGetChannels w [mkInputChannel c 0]).1;
      EvLogError "get channel" err]) /\
  handleEditChannelMessage cfg {| UpdateEdit_Message := MessageC msg |} w
  = (Returned (Some err),
     (ChannelsGetChannels w [mkInputChannel c 0]).2,
     [EvChannelsGetChannels [mkInputChannel c 0]
        (ChannelsGetChannels w [mkInputChannel c 0]).1;
      EvLogError "get channel" err]).
Proof.
  intros Hpeer Hres. rewrite handleNew_generic, handleEdit_generic.
  cbn [UpdateNew_Message UpdateEdit_Message].
  rewrite !(handleChannelMessage_run cfg _ msg c w Hpeer), Hres.
  split; reflexivity.
Qed.

(** A backfill whose look-up of the watched chat fails returns that error
    at once: no page is fetched, nothing is sent and nothing is logged,
    whatever the fuel. *)
Theorem backfill_needs_the_watched_chat fuel cfg err (w : World) :
  resolved (ChannelsGetChannels w
              [mkInputChannel (ChatForWatch (TgApp cfg)) 0]).1 = inl err ->
  fetchAndProcessMessages fuel cfg w
  = (Returned (Some err),
     (ChannelsGetChannels w
        [mkInputChannel (ChatForWatch (TgApp cfg)) 0]).2,
     [EvChannelsGetChannels [mkInputChannel (ChatForWatch (TgApp cfg)) 0]
        (ChannelsGetChannels w
           [mkInputChannel (ChatForWatch (TgApp cfg)) 0]).1]).
Proof.
  intros Hres. rewrite fetchAndProcessMessages_run, Hres. reflexivity.
Qed.

(** Whatever the update and whatever the world, also when it panics, a live
    handler looks up at most one channel, calls the webhook at most once and
    never fetches history. *)
Theorem live_event_costs_at_most_one_call_each cfg (w : World) :
  (forall update,
     (length (resolutions (handleNewChannelMessage cfg update w).2) <= 1)%nat /\
     (length (posts (handleNewChannelMessage cfg update w).2) <= 1)%nat /\
     history_exchanges (handleNewChannelMessage cfg update w).2 = []) /\
  (forall update,
     (length (resolutions (handleEditChannelMessage cfg update w).2) <= 1)%nat /\
     (length (posts (handleEditChannelMessage cfg update w).2) <= 1)%nat /\
     history_exchanges (handleEditChannelMessage cfg update w).2 = []).
Proof.
  assert (Hgen : forall ty payload,
    (length (resolutions (handleChannelMessage cfg ty payload w).2) <= 1)%nat /\
    (length (posts (handleChannelMessage cfg ty payload w).2) <= 1)%nat /\
    history_exchanges (handleChannelMessage cfg ty payload w).2 = []).
  { intros ty payload. destruct (as_Message payload) as [m|] eqn:E.
    - destruct payload; try discriminate. injection E as ->.
      destruct (Message_PeerID m) as [u|g|c] eqn:Hpeer.
      + rewrite handleChannelMessage_not_channel by congruence.
        cbn. repeat split; lia.
      + rewrite handleChannelMessage_not_channel by congruence.
        cbn. repeat split; lia.
      + rewrite (handleChannelMessage_run cfg ty m c w Hpeer).
        destruct (resolved _) as [err|ch]; [cbn; repeat split; lia|].
        destruct (decide _); [|cbn; repeat split; lia].
        cbn [snd]. unfold relayed_trace.
        destruct (delivery_error _); cbn; repeat split; lia.
    - rewrite handleChannelMessage_not_plain by exact E.
      cbn. repeat split; lia. }
  split; intros update; [rewrite handleNew_generic|rewrite handleEdit_generic];
    apply Hgen.
Qed.

(** What ends the loop of the backfill, read off its last request: it
    returns nil after a page shorter than a hundred; it returns an error
    when the fetch failed (that error) or was answered with another kind of
    message list; it panics after a full page whose last entry is no plain
    message; and it runs out of fuel only after as many requests as it had
    fuel. *)
Theorem what_ends_the_history_loop fuel cfg peer o (w : World) :
  match (history_loop fuel cfg peer o w).1.1 with
  | Returned None =>
      exists req page,
        last (history_exchanges (history_loop fuel cfg peer o w).2)
        = Some (req, inr (MessagesChannelMessages page)) /\
        (length page < 100)%nat
  | Returned (Some e) =>
      exists req,
        last (history_exchanges (history_loop fuel cfg peer o w).2)
        = Some (req, inl e) \/
        exists answer,
          last (history_exchanges (history_loop fuel cfg peer o w).2)
          = Some (req, inr answer) /\
          (forall page, answer <> MessagesChannelMessages page) /\
          e = "unexpected messages type"
  | Panicked _ =>
      exists req page m,
        last (history_exchanges (history_loop fuel cfg peer o w).2)
        = Some (req, inr (MessagesChannelMessages page)) /\
        (100 <= length page)%nat /\ last page = Some m /\
        as_Message m = None
  | OutOfFuel =>
      length (history_exchanges (history_loop fuel cfg peer o w).2) = fuel
  end.
Proof.
  revert o w. induction fuel as [|fuel IH]; intros o w; [reflexivity|].
  loop_case fuel cfg peer o w; cbn [fst snd];
    rewrite ?history_exchanges_cons, ?history_exchanges_app,
      ?process_page_exchanges; cbn [app].
  - eexists. left. reflexivity.
  - eexists. right. eexists. split; [reflexivity|]. split; [discriminate|].
    reflexivity.
  - eexists. right. eexists. split; [reflexivity|]. split; [discriminate|].
    reflexivity.
  - eexists _, page. split; [reflexivity|exact Hlen].
  - specialize (IH (Message_ID msg)
      (process_page cfg page
         (MessagesGetHistory w (mkHistoryRequest peer o 100)).2).1.2).
    rewrite last_cons.
    destruct (history_loop fuel cfg peer (Message_ID msg) _).1.1
      as [[e|]|reason|].
    + destruct IH as [req [Hl|[answer (Hl & Hne & He)]]]; rewrite Hl;
        exists req; [left; reflexivity|].
      right. exists answer. auto.
    + destruct IH as (req & page' & Hl & Hshort). rewrite Hl. eauto.
    + destruct IH as (req & page' & m & Hl & Hfull & Hm & Hnot).
      rewrite Hl. eauto 10.
    + cbn [length]. rewrite IH. reflexivity.
  - eexists _, page, m. split; [reflexivity|]. split; [lia|].
    split; [exact Hlast|exact Hm].
  - eexists. right. eexists. split; [reflexivity|]. split; [discriminate|].
    reflexivity.
Qed.

(** Against a history call that answers every request with the same full
    page of plain messages the loop never ends: whatever the fuel, it is
    used up, one request per unit.  The code keeps no bound of its own and
    does not check that the cursor moved. *)
Theorem history_loop_has_no_bound cfg peer page msg :
  (forall (w : World) req,
     (MessagesGetHistory w req).1 = inr (MessagesChannelMessages page)) ->
  (100 <= length page)%nat ->
  last page = Some (MessageC msg) ->
  forall fuel o (w : World),
    (history_loop fuel cfg peer o w).1.1 = OutOfFuel /\
    length (history_exchanges (history_loop fuel cfg peer o w).2) = fuel.
Proof.
  intros Hsame Hlen Hlast. induction fuel as [|fuel IH]; intros o w.
  { split; reflexivity. }
  rewrite (history_loop_full fuel cfg peer o w page msg (Hsame w _) Hlen Hlast).
  cbn [fst snd]. rewrite history_exchanges_cons, history_exchanges_app,
    process_page_exchanges. cbn [app length].
  destruct (IH (Message_ID msg)
    (process_page cfg page
       (MessagesGetHistory w (mkHistoryRequest peer o 100)).2).1.2)
    as [-> ->].
  split; reflexivity.
Qed.

(** Every page request of a backfill run asks for a hundred entries of the
    peer made of the identifier and the access hash of the channel the
    look-up returned. *)
Theorem backfill_requests_use_the_resolved_peer fuel cfg channel (w : World) :
  resolved (ChannelsGetChannels w
              [mkInputChannel (ChatForWatch (TgApp cfg)) 0]).1
  = inr channel ->
  Forall (fun x =>
            Req_Peer x.1 = mkInputPeerChannel (Channel_ID channel)
                             (Channel_AccessHash channel) /\
            Req_Limit x.1 = 100)
    (history_exchanges (fetchAndProcessMessages fuel cfg w).2).
Proof.
  intros Hres. rewrite fetchAndProcessMessages_run, Hres. cbn [snd].
  rewrite history_exchanges_resolution_cons.
  generalize (ChannelsGetChannels w
                [mkInputChannel (ChatForWatch (TgApp cfg)) 0]).2.
  generalize 0.
  induction fuel as [|fuel IH]; intros o w1; [constructor|].
  loop_case fuel cfg
    (mkInputPeerChannel (Channel_ID channel) (Channel_AccessHash channel))
    o w1; cbn [snd];
    rewrite ?history_exchanges_cons, ?history_exchanges_app,
      ?process_page_exchanges; cbn [app];
    repeat constructor.
  apply IH.
Qed.

Lemma process_page_replayed cfg page (w : World) :
  posts (process_page cfg page w).2 = replayed_post cfg <$> omap as_Message page.
Proof. apply process_page_posts. Qed.

(** The requests of the loop over the part [rest] of a served history. *)
Lemma history_loop_served_posts hist cfg peer :
  serves hist -> newest_first hist ->
  forall (n r fuel : nat) pre rest o (w : World),
    hist = pre ++ rest ->
    filter (fun x => o = 0 \/ entry_ID x < o) hist = rest ->
    plain_at_boundaries rest ->
    length rest = (100 * n + r)%nat -> (r < 100)%nat -> (n < fuel)%nat ->
    posts (history_loop fuel cfg peer o w).2
    = replayed_post cfg <$> omap as_Message rest.
Proof.
  intros Hserve [Hsorted Hpos].
  induction n as [|n IH]; intros r fuel pre rest o w Hhist Holder Hplain
    Hlen Hr Hfuel; (destruct fuel as [|fuel]; [lia|]);
    pose proof (Hserve w (mkHistoryRequest peer o 100)) as E;
    unfold history_page in E; cbn [Req_OffsetID Req_Limit] in E;
    change (Z.to_nat 100) with 100%nat in E; rewrite Holder in E.
  - rewrite take_ge in E by lia.
    rewrite (history_loop_short fuel cfg peer o w rest E) by lia.
    cbn [snd]. rewrite posts_history_cons. apply process_page_replayed.
  - assert (Hm : is_Some (rest !! 99%nat)) by (apply lookup_lt_is_Some; lia).
    destruct Hm as [m Hm].
    destruct (Hplain 0%nat m Hm) as [msg Hmsg].
    destruct m; try discriminate. cbn [as_Message] in Hmsg.
    injection Hmsg as ->.
    assert (Hlast : last (take 100 rest) = Some (MessageC msg)).
    { rewrite last_lookup, length_take_le by lia. cbn [pred].
      rewrite lookup_take_lt by lia. exact Hm. }
    rewrite (history_loop_full fuel cfg peer o w (take 100 rest) msg E)
      by (rewrite ?length_take_le by lia; first [lia|exact Hlast]).
    cbn [snd].
    assert (Hsplit : hist
      = (pre ++ take 99 rest) ++ MessageC msg :: drop 100 rest).
    { rewrite Hhist, <- app_assoc. f_equal.
      symmetry. apply (take_drop_middle rest 99 _ Hm). }
    assert (Hmpos : 0 < Message_ID msg).
    { rewrite Forall_forall in Hpos. apply (Hpos (MessageC msg)).
      rewrite Hsplit. apply elem_of_app. right. apply list_elem_of_here. }
    rewrite posts_history_cons, posts_app, process_page_replayed.
    rewrite (IH r fuel (pre ++ take 100 rest) (drop 100 rest)).
    + rewrite <- fmap_app, <- omap_app, take_drop. reflexivity.
    + rewrite Hhist, <- app_assoc, take_drop. reflexivity.
    + rewrite Hsplit at 1.
      apply (filter_older_after (pre ++ take 99 rest) (MessageC msg)
               (drop 100 rest)); [rewrite <- Hsplit; exact Hsorted|exact Hmpos].
    + intros k m' Hk. apply (Hplain (S k) m').
      rewrite lookup_drop in Hk. rewrite <- Hk. f_equal. lia.
    + rewrite length_drop. lia.
    + exact Hr.
    + lia.
Qed.

(** Over a history served newest first, with a plain message at the end of
    every full page, the backfill relays every plain message of the history
    exactly once, newest first: no message is lost or sent twice at a page
    boundary, and entries that are no plain message are left out.  The
    answers of the webhook do not matter. *)
Theorem backfill_relays_the_history_once
    hist cfg chats channel others fuel (w w1 : World) :
  serves hist -> newest_first hist -> plain_at_boundaries hist ->
  ChannelsGetChannels w [mkInputChannel (ChatForWatch (TgApp cfg)) 0]
    = (inr chats, w1) ->
  GetChats chats = ChannelC channel :: others ->
  (length hist / 100 < fuel)%nat ->
  posts (fetchAndProcessMessages fuel cfg w).2
  = replayed_post cfg <$> omap as_Message hist.
Proof.
  intros Hserve Hnewest Hplain Hres Hchats Hfuel.
  rewrite fetchAndProcessMessages_run, Hres. cbn [fst snd].
  rewrite (resolved_channel _ _ _ Hchats). cbn [snd].
  rewrite posts_resolution_cons.
  apply (history_loop_served_posts hist cfg _ Hserve Hnewest
           (length hist / 100)%nat (length hist mod 100)%nat fuel [] hist 0 w1);
    try assumption.
  - reflexivity.
  - apply filter_all. apply Forall_true. intros x. left. reflexivity.
  - apply Nat.div_mod_eq.
  - apply Nat.mod_upper_bound. lia.
Qed.

Lemma error_lines_app t1 t2 :
  error_lines (t1 ++ t2) = error_lines t1 ++ error_lines t2.
Proof. apply omap_app. Qed.

Lemma delivery_failures_app t1 t2 :
  delivery_failures (t1 ++ t2) = delivery_failures t1 ++ delivery_failures t2.
Proof. apply omap_app. Qed.

Lemma replayed_trace_errors url msg answer :
  error_lines (replayed_trace url msg answer)
  = (fun e => ("Error sending message", e))
    <$> delivery_failures (replayed_trace url msg answer).
Proof.
  unfold replayed_trace, error_lines, delivery_failures. cbn.
  destruct (delivery_error answer); reflexivity.
Qed.

Lemma process_page_errors cfg page (w : World) :
  error_lines (process_page cfg page w).2
  = (fun e => ("Error sending message", e))
    <$> delivery_failures (process_page cfg page w).2.
Proof.
  revert w. induction page as [|m rest IH]; intros w; [reflexivity|].
  destruct (as_Message m) as [msg|] eqn:E.
  - destruct m; try discriminate. injection E as ->.
    rewrite process_page_plain. cbn [snd].
    rewrite error_lines_app, delivery_failures_app, fmap_app,
      replayed_trace_errors, IH. reflexivity.
  - rewrite process_page_skip by exact E. apply IH.
Qed.

Lemma history_loop_errors fuel cfg peer o (w : World) :
  error_lines (history_loop fuel cfg peer o w).2
  = (fun e => ("Error sending message", e))
    <$> delivery_failures (history_loop fuel cfg peer o w).2.
Proof.
  revert o w. induction fuel as [|fuel IH]; intros o w; [reflexivity|].
  loop_case fuel cfg peer o w; cbn [snd]; try reflexivity.
  - change (error_lines (EvMessagesGetHistory ?r ?a :: ?t))
      with (error_lines t).
    change (delivery_failures (EvMessagesGetHistory ?r ?a :: ?t))
      with (delivery_failures t).
    apply process_page_errors.
  - change (error_lines (EvMessagesGetHistory ?r ?a :: ?t))
      with (error_lines t).
    change (delivery_failures (EvMessagesGetHistory ?r ?a :: ?t))
      with (delivery_failures t).
    rewrite error_lines_app, delivery_failures_app, fmap_app,
      process_page_errors, IH. reflexivity.
  - change (error_lines (EvMessagesGetHistory ?r ?a :: ?t))
      with (error_lines t).
    change (delivery_failures (EvMessagesGetHistory ?r ?a :: ?t))
      with (delivery_failures t).
    apply process_page_errors.
Qed.

Lemma fetchAndProcessMessages_errors fuel cfg (w : World) :
  error_lines (fetchAndProcessMessages fuel cfg w).2
  = (fun e => ("Error sending message", e))
    <$> delivery_failures (fetchAndProcessMessages fuel cfg w).2.
Proof.
  rewrite fetchAndProcessMessages_run.
  destruct (resolved _) as [err|ch]; cbn [snd]; [reflexivity|].
  change (error_lines (EvChannelsGetChannels ?r ?a :: ?t))
    with (error_lines t).
  change (delivery_failures (EvChannelsGetChannels ?r ?a :: ?t))
    with (delivery_failures t).
  apply history_loop_errors.
Qed.

(** The error log of a backfill run is its failed deliveries: every request
    the webhook failed is logged once as "Error sending message", in the
    order of the requests, and the run logs no other error, not even the one
    it returns.  The same holds page by page. *)
Theorem backfill_logs_every_failed_delivery fuel cfg (w : World) :
  error_lines (fetchAndProcessMessages fuel cfg w).2
  = ((fun e => ("Error sending message", e))
     <$> delivery_failures (fetchAndProcessMessages fuel cfg w).2) /\
  (forall page (w' : World),
     error_lines (process_page cfg page w').2
     = (fun e => ("Error sending message", e))
       <$> delivery_failures (process_page cfg page w').2).
Proof.
  split; [apply fetchAndProcessMessages_errors|].
  intros page w'. apply process_page_errors.
Qed.

(** The backfill task of [Run] keeps a failure of the backfill to itself: it
    logs the error the backfill returned as "fetch and process messages",
    after the lines of the failed deliveries, and returns normally.  Only a
    panic of the backfill gets out of it. *)
Theorem backfill_task_logs_and_returns fuel cfg (w : World) :
  match (fetchAndProcessMessages fuel cfg w).1.1 with
  | Returned r =>
      (backfill_task fuel cfg w).1.1 = Returned tt /\
      error_lines (backfill_task fuel cfg w).2
      = ((fun e => ("Error sending message", e))
         <$> delivery_failures (fetchAndProcessMessages fuel cfg w).2)
        ++ match r with
           | Some e => [("fetch and process messages", e)]
           | None => []
           end
  | Panicked reason => (backfill_task fuel cfg w).1.1 = Panicked reason
  | OutOfFuel => (backfill_task fuel cfg w).1.1 = OutOfFuel
  end.
Proof.
  pose proof (fetchAndProcessMessages_errors fuel cfg w) as Hlog.
  unfold backfill_task, bind.
  destruct (fetchAndProcessMessages fuel cfg w) as [[[r|reason|] w'] t];
    cbn [fst snd] in *; try reflexivity.
  destruct r as [e|]; cbn [fst snd log_Error emit ret].
  - split; [reflexivity|]. rewrite error_lines_app, Hlog. reflexivity.
  - split; [reflexivity|]. rewrite error_lines_app, Hlog. reflexivity.
Qed.

End Further.

(** ** Properties of the second text of the package *)

Section LegacyText.
Context `{Outside}.
Variable ToLower : string -> string.

(** In the second text an event whose payload is no plain message, or whose
    message has a peer that is no channel, does not panic: [getChannel]
    answers "bad peerID" before any call, and the handler logs that as
    "get channel" and returns it. *)
Theorem legacy_event_without_channel_is_an_error cfg payload (w : World) :
  (forall c, GetPeerID (as_Message payload) <> Some (PeerChannel c)) ->
  Legacy.handleNewChannelMessage ToLower cfg
    {| UpdateNew_Message := payload |} w
  = (Returned (Some "bad peerID"), w,
     [Legacy.Eff (EvLogError "get channel" "bad peerID")]) /\
  Legacy.handleEditChannelMessage ToLower cfg
    {| UpdateEdit_Message := payload |} w
  = (Returned (Some "bad peerID"), w,
     [Legacy.Eff (EvLogError "get channel" "bad peerID")]).
Proof.
  intros Hpeer.
  unfold Legacy.handleNewChannelMessage, Legacy.handleEditChannelMessage,
    Legacy.getChannel. cbn [UpdateNew_Message UpdateEdit_Message].
  destruct (GetPeerID (as_Message payload)) as [[u|g|c]|];
    try (split; reflexivity).
  destruct (Hpeer c). reflexivity.
Qed.

(** In the second text the first chat of the answer is asserted to be a
    channel without a check: when it is another kind of chat both handlers
    panic after the look-up, where [app.go] returns the error
    "unexpected chat type". *)
Theorem legacy_first_chat_must_be_a_channel
    cfg msg c chats first others (w w1 : World) :
  Message_PeerID msg = PeerChannel c ->
  ChannelsGetChannels w [mkInputChannel c 0] = (inr chats, w1) ->
  GetChats chats = first :: others ->
  (forall channel, first <> ChannelC channel) ->
  Legacy.handleNewChannelMessage ToLower cfg
    {| UpdateNew_Message := MessageC msg |} w
  = (Panicked ("interface conversion: tg.ChatClass is "
               +:+ Legacy.ChatClass_TypeName first +:+ ", not *tg.Channel"),
     w1, [Legacy.Eff (EvChannelsGetChannels [mkInputChannel c 0] (inr chats))])
  /\
  Legacy.handleEditChannelMessage ToLower cfg
    {| UpdateEdit_Message := MessageC msg |} w
  = (Panicked ("interface conversion: tg.ChatClass is "
               +:+ Legacy.ChatClass_TypeName first +:+ ", not *tg.Channel"),
     w1, [Legacy.Eff (EvChannelsGetChannels [mkInputChannel c 0] (inr chats))])
  /\
  (handleNewChannelMessage cfg {| UpdateNew_Message := MessageC msg |} w).1.1
  = Returned (Some "unexpected chat type").
Proof.
  intros Hpeer Hres Hchats Hfirst.
  assert (Hlegacy : forall A (k : error + Channel -> Legacy.ML A),
    Legacy.bind (Legacy.getChannel (Some msg)) k w
    = (Panicked ("interface conversion: tg.ChatClass is "
                 +:+ Legacy.ChatClass_TypeName first +:+ ", not *tg.Channel"),
       w1,
       [Legacy.Eff (EvChannelsGetChannels [mkInputChannel c 0] (inr chats))])).
  { intros A k. unfold Legacy.getChannel. cbn [GetPeerID]. rewrite Hpeer.
    unfold Legacy.bind, Legacy.lift, call_ChannelsGetChannels.
    rewrite Hres, Hchats. cbn [length head].
    destruct first as [i|i|i|ch|i]; try reflexivity.
    destruct (Hfirst ch). reflexivity. }
  split; [|split].
  - apply Hlegacy.
  - apply Hlegacy.
  - rewrite handleNew_generic. cbn [UpdateNew_Message].
    rewrite (handleChannelMessage_run cfg _ msg c w Hpeer), Hres.
    cbn [fst snd resolved]. rewrite Hchats.
    destruct first as [i|i|i|ch|i]; try reflexivity.
    destruct (Hfirst ch). reflexivity.
Qed.

Lemma legacy_bind_returned {A B} (m : Legacy.ML A) (k : A -> Legacy.ML B)
    (w w1 : World) a t :
  m w = (Returned a, w1, t) ->
  Legacy.bind m k w = ((k a w1).1, t ++ (k a w1).2).
Proof.
  intros E. unfold Legacy.bind. rewrite E. destruct (k a w1) as [[o w2] t2].
  reflexivity.
Qed.

Lemma legacy_getChannel_resolves msg c chats channel others (w w1 : World) :
  Message_PeerID msg = PeerChannel c ->
  ChannelsGetChannels w [mkInputChannel c 0] = (inr chats, w1) ->
  GetChats chats = ChannelC channel :: others ->
  Legacy.getChannel (Some msg) w
  = (Returned (inr channel), w1,
     [Legacy.Eff (EvChannelsGetChannels [mkInputChannel c 0] (inr chats))]).
Proof.
  intros Hpeer Hres Hchats. unfold Legacy.getChannel. cbn [GetPeerID].
  rewrite Hpeer. unfold Legacy.bind, Legacy.lift, call_ChannelsGetChannels.
  rewrite Hres, Hchats. reflexivity.
Qed.

Lemma legacy_sendMessage_run text url ty id (w : World) :
  Legacy.sendMessage text url ty id w
  = (Returned (delivery_error
                 (http_Post w url "application/json"
                    (Legacy.postBody text ty id)).1),
     (http_Post w url "application/json" (Legacy.postBody text ty id)).2,
     [Legacy.Eff
        (EvHttpPost url "application/json" (Legacy.postBody text ty id)
           (http_Post w url "application/json"
              (Legacy.postBody text ty id)).1)]).
Proof.
  unfold Legacy.sendMessage, Legacy.bind, Legacy.lift, call_http_Post.
  destruct (http_Post w url "application/json" (Legacy.postBody text ty id))
    as [[err|resp] w'] eqn:E; cbn.
  - reflexivity.
  - unfold Legacy.ret.
    destruct (decide (StatusCode resp ≠ http_StatusOK)); reflexivity.
Qed.

(** The trace of a handler of the second text that reached the webhook. *)
Lemma legacy_relay_run cfg ty text id (w1 : World) :
  Legacy.bind (Legacy.sendMessage text (WebhookUrl (TgApp cfg)) ty id)
    (fun err =>
       Legacy.bind (match err with
                    | Some e => Legacy.Println "Error sending message:" e
                    | None => Legacy.ret tt
                    end)
         (fun _ => Legacy.lift (log_Info "Message" text))) w1
  = (Returned tt,
     (http_Post w1 (WebhookUrl (TgApp cfg)) "application/json"
        (Legacy.postBody text ty id)).2,
     [Legacy.Eff
        (EvHttpPost (WebhookUrl (TgApp cfg)) "application/json"
           (Legacy.postBody text ty id)
           (http_Post w1 (WebhookUrl (TgApp cfg)) "application/json"
              (Legacy.postBody text ty id)).1)]
     ++ match delivery_error
                (http_Post w1 (WebhookUrl (TgApp cfg)) "application/json"
                   (Legacy.postBody text ty id)).1 with
        | Some e => [Legacy.Stdout ("Error sending message: " +:+ e)]
        | None => []
        end
     ++ [Legacy.Eff (EvLogInfo "Message" text)]).
Proof.
  rewrite (legacy_bind_returned _ _ _ _ _ _
             (legacy_sendMessage_run text (WebhookUrl (TgApp cfg)) ty id w1)).
  destruct (delivery_error _); reflexivity.
Qed.

(** The run of a handler of the second text on a plain message of the
    watched chat. *)
Lemma legacy_handlers_run cfg msg c chats channel others (w w1 : World) :
  Message_PeerID msg = PeerChannel c ->
  ChannelsGetChannels w [mkInputChannel c 0] = (inr chats, w1) ->
  GetChats chats = ChannelC channel :: others ->
  Channel_ID channel = ChatForWatch (TgApp cfg) ->
  Legacy.handleNewChannelMessage ToLower cfg
    {| UpdateNew_Message := MessageC msg |} w
  = (Returned None,
     (http_Post w1 (WebhookUrl (TgApp cfg)) "application/json"
        (Legacy.postBody (ToLower (Message_text msg)) "newMessage"
           (Message_ID msg))).2,
     Legacy.Eff (EvChannelsGetChannels [mkInputChannel c 0] (inr chats))
     :: [Legacy.Eff
           (EvHttpPost (WebhookUrl (TgApp cfg)) "application/json"
              (Legacy.postBody (ToLower (Message_text msg)) "newMessage"
                 (Message_ID msg))
              (http_Post w1 (WebhookUrl (TgApp cfg)) "application/json"
                 (Legacy.postBody (ToLower (Message_text msg)) "newMessage"
                    (Message_ID msg))).1)]
     ++ match delivery_error
                (http_Post w1 (WebhookUrl (TgApp cfg)) "application/json"
                   (Legacy.postBody (ToLower (Message_text msg)) "newMessage"
                      (Message_ID msg))).1 with
        | Some e => [Legacy.Stdout ("Error sending message: " +:+ e)]
        | None => []
        end
     ++ [Legacy.Eff (EvLogInfo "Message" (ToLower (Message_text msg)))]) /\
  Legacy.handleEditChannelMessage ToLower cfg
    {| UpdateEdit_Message := MessageC msg |} w
  = (Returned None,
     (http_Post w1 (WebhookUrl (TgApp cfg)) "application/json"
        (Legacy.postBody (ToLower (Message_text msg)) "editMessage"
           (Message_ID msg))).2,
     Legacy.Eff (EvChannelsGetChannels [mkInputChannel c 0] (inr chats))
     :: [Legacy.Eff
           (EvHttpPost (WebhookUrl (TgApp cfg)) "application/json"
              (Legacy.postBody (ToLower (Message_text msg)) "editMessage"
                 (Message_ID msg))
              (http_Post w1 (WebhookUrl (TgApp cfg)) "application/json"
                 (Legacy.postBody (ToLower (Message_text msg)) "editMessage"
                    (Message_ID msg))).1)]
     ++ match delivery_error
                (http_Post w1 (WebhookUrl (TgApp cfg)) "application/json"
                   (Legacy.postBody (ToLower (Message_text msg)) "editMessage"
                      (Message_ID msg))).1 with
        | Some e => [Legacy.Stdout ("Error sending message: " +:+ e)]
        | None => []
        end
     ++ [Legacy.Eff (EvLogInfo "Message" (ToLower (Message_text msg)))]).
Proof.
  intros Hpeer Hres Hchats Hid.
  pose proof (legacy_getChannel_resolves msg c chats channel others w w1
                Hpeer Hres Hchats) as Hget.
  unfold Legacy.handleNewChannelMessage, Legacy.handleEditChannelMessage.
  cbn [UpdateNew_Message UpdateEdit_Message as_Message GetMessage GetID].
  split.
  - rewrite (legacy_bind_returned _ _ _ _ _ _ Hget). cbn beta iota.
    destruct (decide (Channel_ID channel = ChatForWatch (TgApp cfg)))
      as [_|Hne]; [|contradiction].
    rewrite (legacy_bind_returned _ _ _ _ _ _
               (legacy_relay_run cfg "newMessage" _ _ w1)).
    cbn [fst snd Legacy.ret]. rewrite app_nil_r. reflexivity.
  - rewrite (legacy_bind_returned _ _ _ _ _ _ Hget). cbn beta iota.
    destruct (decide (Channel_ID channel = ChatForWatch (TgApp cfg)))
      as [_|Hne]; [|contradiction].
    rewrite (legacy_bind_returned _ _ _ _ _ _
               (legacy_relay_run cfg "editMessage" _ _ w1)).
    cbn [fst snd Legacy.ret]. rewrite app_nil_r. reflexivity.
Qed.

(** The second text relays a plain message of the watched chat with its text
    lower-cased and its identifier, in decimal, under the key [message_id]:
    one request, and the handler returns nil. *)
Theorem legacy_relays_lowercased_text
    cfg msg c chats channel others (w w1 : World) :
  Message_PeerID msg = PeerChannel c ->
  ChannelsGetChannels w [mkInputChannel c 0] = (inr chats, w1) ->
  GetChats chats = ChannelC channel :: others ->
  Channel_ID channel = ChatForWatch (TgApp cfg) ->
  ((Legacy.handleNewChannelMessage ToLower cfg
      {| UpdateNew_Message := MessageC msg |} w).1.1 = Returned None /\
   posts (Legacy.effects
            (Legacy.handleNewChannelMessage ToLower cfg
               {| UpdateNew_Message := MessageC msg |} w).2)
   = [(WebhookUrl (TgApp cfg), "application/json",
       [("message_id", Itoa (Message_ID msg));
        ("text", ToLower (Message_text msg));
        ("type", "newMessage")])]) /\
  ((Legacy.handleEditChannelMessage ToLower cfg
      {| UpdateEdit_Message := MessageC msg |} w).1.1 = Returned None /\
   posts (Legacy.effects
            (Legacy.handleEditChannelMessage ToLower cfg
               {| UpdateEdit_Message := MessageC msg |} w).2)
   = [(WebhookUrl (TgApp cfg), "application/json",
       [("message_id", Itoa (Message_ID msg));
        ("text", ToLower (Message_text msg));
        ("type", "editMessage")])]).
Proof.
  intros Hpeer Hres Hchats Hid.
  destruct (legacy_handlers_run cfg msg c chats channel others w w1
              Hpeer Hres Hchats Hid) as [Hnew Hedit].
  rewrite Hnew, Hedit. clear Hnew Hedit. cbn [fst snd].
  split; (split; [reflexivity|]); destruct (delivery_error _); reflexivity.
Qed.


End LegacyText.

(** *** Witnesses of the further properties *)

Lemma unresolved_channel_is_reported_witness :
  handleNewChannelMessage (H := offline) watch42
    {| UpdateNew_Message := MessageC hello7 |} tt
  = (Returned (Some "failed to fetch channel: connection refused"), tt,
     [EvChannelsGetChannels [mkInputChannel 42 0] (inl "connection refused");
      EvLogError "get channel"
        "failed to fetch channel: connection refused"]).
Proof.
  apply (unresolved_channel_is_reported (H := offline) watch42 hello7 42
           "failed to fetch channel: connection refused" tt);
    reflexivity.
Defined.

Lemma backfill_needs_the_watched_chat_witness :
  fetchAndProcessMessages (H := offline) 0 watch42 tt
  = (Returned (Some "failed to fetch channel: connection refused"), tt,
     [EvChannelsGetChannels [mkInputChannel 42 0] (inl "connection refused")]).
Proof.
  apply (backfill_needs_the_watched_chat (H := offline) 0 watch42
           "failed to fetch channel: connection refused" tt).
  reflexivity.
Defined.

Lemma history_loop_has_no_bound_witness :
  (history_loop (H := repeating (plain_history 100)) 3 watch42
     (mkInputPeerChannel 42 77) 0 tt).1.1 = OutOfFuel /\
  length (history_exchanges
            (history_loop (H := repeating (plain_history 100)) 3 watch42
               (mkInputPeerChannel 42 77) 0 tt).2) = 3%nat.
Proof.
  apply (history_loop_has_no_bound (H := repeating (plain_history 100))
           watch42 (mkInputPeerChannel 42 77) (plain_history 100)
           (mkMessage 1 (PeerChannel 42) "hi")).
  - intros w req. reflexivity.
  - vm_compute. lia.
  - vm_compute. reflexivity.
Defined.

Lemma backfill_requests_use_the_resolved_peer_witness :
  Forall (fun x => Req_Peer x.1 = mkInputPeerChannel 42 77 /\
                   Req_Limit x.1 = 100)
    (history_exchanges
       (fetchAndProcessMessages (H := serving (plain_history 250))
          5 watch42 0%nat).2).
Proof.
  apply (backfill_requests_use_the_resolved_peer
           (H := serving (plain_history 250)) 5 watch42 (mkChannel 42 77)
           0%nat).
  reflexivity.
Defined.

Lemma backfill_relays_the_history_once_witness :
  posts (fetchAndProcessMessages (H := serving (plain_history 250))
           5 watch42 0%nat).2
  = replayed_post watch42 <$> omap as_Message (plain_history 250).
Proof.
  apply (backfill_relays_the_history_once (H := serving (plain_history 250))
           (plain_history 250) watch42
           (MessagesChats [ChannelC (mkChannel 42 77)]) (mkChannel 42 77) []
           5 0%nat 0%nat).
  - apply serving_serves.
  - apply plain_history_250_newest_first.
  - apply all_plain_at_boundaries, plain_history_plain.
  - reflexivity.
  - reflexivity.
  - vm_compute. lia.
Defined.

Lemma legacy_event_without_channel_is_an_error_witness :
  Legacy.handleNewChannelMessage (H := serving []) ascii_lower watch42
    {| UpdateNew_Message := MessageServiceC 1 (PeerChannel 42) |} 0%nat
  = (Returned (Some "bad peerID"), 0%nat,
     [Legacy.Eff (EvLogError "get channel" "bad peerID")]).
Proof.
  apply (legacy_event_without_channel_is_an_error (H := serving [])
           ascii_lower watch42 (MessageServiceC 1 (PeerChannel 42)) 0%nat).
  intros c. discriminate.
Defined.

Lemma legacy_first_chat_must_be_a_channel_witness :
  Legacy.handleNewChannelMessage (H := answering_with_group) ascii_lower
    watch42 {| UpdateNew_Message := MessageC hello7 |} tt
  = (Panicked "interface conversion: tg.ChatClass is *tg.Chat, not *tg.Channel",
     tt,
     [Legacy.Eff (EvChannelsGetChannels [mkInputChannel 42 0]
                    (inr (MessagesChats [ChatC 42])))]).
Proof.
  apply (legacy_first_chat_must_be_a_channel (H := answering_with_group)
           ascii_lower watch42 hello7 42 (MessagesChats [ChatC 42]) (ChatC 42)
           [] tt tt);
    [reflexivity|reflexivity|reflexivity|discriminate].
Defined.

Lemma legacy_relays_lowercased_text_witness :
  posts (Legacy.effects
           (Legacy.handleEditChannelMessage (H := serving []) ascii_lower
              watch42 {| UpdateEdit_Message := MessageC hello7 |} 0%nat).2)
  = [("http://hook.example/in", "application/json",
      [("message_id", "7"); ("text", "hello"); ("type", "editMessage")])].
Proof.
  apply (legacy_relays_lowercased_text (H := serving []) ascii_lower watch42
           hello7 42 (MessagesChats [ChannelC (mkChannel 42 77)])
           (mkChannel 42 77) [] 0%nat 0%nat);
    reflexivity.
Defined.

